(** * Remote action dispatch and status convergence

    A shallow embedding of the hub-side client of [pkg/client/init.go]
    (the revision that drives ManagedClusterAction / ManagedClusterView
    resources): template rendering, the dispatcher
    [LaunchKubernetesObjects], the query/delete helper [ManageObjects] and
    the status poller [CheckStatus].

    Go values are modelled as follows.
    - [error] is an inductive with one constructor for plain message errors
      ([fmt.Errorf]) and one for API status errors; a nil error is [None].
    - [map[string]interface{}] is a [gmap string value] over a JSON-like
      [value]; a failed type assertion is a [Panicked] outcome.
    - The remote API (dynamic client, discovery, sleeping) is an interface
      [Cluster W] over an abstract world [W], threaded explicitly.
    - text/template, the YAML decoder and the client-go constructors are
      the fields of [Libs]. *)

From stdpp Require Import base strings gmap list.

Set Warnings "-register-all".

(** ** Errors *)

Module errors.

Inductive StatusReason : Type :=
  | StatusReasonAlreadyExists
  | StatusReasonNotFound
  | StatusReasonUnknown.

(** [ErrorString] is what [fmt.Errorf] and [errors.New] build;
    [StatusError] is the API machinery's status error. *)
Inductive error : Type :=
  | ErrorString (s : string)
  | StatusError (reason : StatusReason) (message : string).

(** [err.Error()] *)
Definition Error (e : error) : string :=
  match e with
  | ErrorString s => s
  | StatusError _ m => m
  end.

Definition IsAlreadyExists (e : error) : bool :=
  match e with
  | StatusError StatusReasonAlreadyExists _ => true
  | _ => false
  end.

Definition IsNotFound (e : error) : bool :=
  match e with
  | StatusError StatusReasonNotFound _ => true
  | _ => false
  end.

End errors.
Export errors.

(** [hay] has [needle] as a contiguous part. *)
Definition mentions (needle hay : string) : Prop :=
  exists pre post : string, hay = pre +:+ needle +:+ post.

(** The outcome of a Go call that may panic. *)
Inductive outcome (A : Type) : Type :=
  | Returned (a : A)
  | Panicked (msg : string).
Arguments Returned {A} a.
Arguments Panicked {A} msg.

(** ** Unstructured documents *)

Inductive value : Type :=
  | VNull
  | VBool (b : bool)
  | VNum (z : Z)
  | VString (s : string)
  | VList (l : list value)
  | VMap (m : gmap string value).

Record Unstructured : Type := { Object : gmap string value }.

Module unstructured.

Definition accessor_error (expected : string) : error :=
  ErrorString ("accessor error: value is not of the expected type " +:+ expected).

(** The traversal of [NestedFieldNoCopy]: a missing field or a nil value
    gives "not found" without an error, a non-map on the way gives an
    error. *)
Fixpoint nested_field (val : value) (fields : list string)
  : value * bool * option error :=
  match fields with
  | [] => (val, true, None)
  | field :: rest =>
      match val with
      | VNull => (VNull, false, None)
      | VMap m =>
          match m !! field with
          | Some v => nested_field v rest
          | None => (VNull, false, None)
          end
      | _ => (VNull, false, Some (accessor_error "map[string]interface{}"))
      end
  end.

Definition NestedFieldNoCopy (obj : gmap string value) (fields : list string)
  : value * bool * option error :=
  nested_field (VMap obj) fields.

Definition NestedSlice (obj : gmap string value) (fields : list string)
  : list value * bool * option error :=
  let '(val, found, err) := NestedFieldNoCopy obj fields in
  if negb found || bool_decide (err <> None) then ([], found, err)
  else match val with
       | VList l => (l, true, None)
       | _ => ([], false, Some (accessor_error "[]interface{}"))
       end.

Definition NestedString (obj : gmap string value) (fields : list string)
  : string * bool * option error :=
  let '(val, found, err) := NestedFieldNoCopy obj fields in
  if negb found || bool_decide (err <> None) then (EmptyString, found, err)
  else match val with
       | VString s => (s, true, None)
       | _ => (EmptyString, false, Some (accessor_error "string"))
       end.

(** [obj.GetName()] *)
Definition GetName (obj : Unstructured) : string :=
  let '(s, _, _) := NestedString (Object obj) ["metadata"; "name"] in s.

(** [NestedMap]: the map under [fields]; [None] is the nil map. *)
Definition NestedMap (obj : gmap string value) (fields : list string)
  : option (gmap string value) * bool * option error :=
  let '(val, found, err) := NestedFieldNoCopy obj fields in
  if negb found || bool_decide (err <> None) then (None, found, err)
  else match val with
       | VMap m => (Some m, true, None)
       | _ => (None, false, Some (accessor_error "map[string]interface{}"))
       end.

(** [m[k]] on a map that may be nil: nil when the key is absent. *)
Definition index (m : option (gmap string value)) (k : string) : value :=
  default VNull (m ≫= lookup k).

End unstructured.

(** ** Kinds and resource collections *)

Record GroupKind : Type := { gk_Group : string; gk_Kind : string }.

Record GroupVersionKind : Type :=
  { gvk_Group : string; gvk_Version : string; gvk_Kind : string }.

Definition GroupKind_of (gvk : GroupVersionKind) : GroupKind :=
  {| gk_Group := gvk_Group gvk; gk_Kind := gvk_Kind gvk |}.

Record GroupVersionResource : Type :=
  { Group : string; Version : string; Resource : string }.

(** One line of the remote schema catalogue, as the mapper takes it in:
    a resource of its own, not a subresource (the mapper leaves names with
    a slash out). *)
Record APIResource : Type :=
  { api_Group : string; api_Version : string; api_Kind : string;
    api_Name : string }.

Definition Catalogue : Type := list APIResource.

(** Opaque handles of client-go. *)
Record Config : Type := { Host : string }.
Record DiscoveryClient : Type := { restConfig : Config }.

(** ** Data of the client *)

Record Client : Type :=
  { Spoke : list string; BackupPath : string; KubeconfigPath : string }.

Record TemplateData : Type :=
  { td_ResourceName : string; ClusterName : string; RecoveryPath : string }.

Record ResourceTemplate : Type :=
  { ResourceName : string; Template : string }.

(** The template bodies live in a file of their own; they are taken as
    given text. *)
Record TemplateBodies : Type :=
  { commonTemplates : string;
    mngClusterActCreateNS : string;
    mngClusterActCreateSA : string;
    mngClusterActCreateRB : string;
    mngClusterActCreateJob : string;
    mngClusterViewJob : string;
    mngClusterActDeleteNS : string }.

Definition MCA : string := "managedclusteractions".
Definition MCV : string := "managedclusterviews".

(** ** Collaborators *)

(** The libraries the client calls that touch no remote state. *)
Record Libs : Type :=
  { Tmpl : Type;
    (** [template.New(name).Parse(text)] *)
    template_Parse : string -> string -> Tmpl + error;
    (** [tmpl.Execute(w, data)]: the bytes written and the error *)
    template_Execute : Tmpl -> TemplateData -> string * option error;
    (** [dec.Decode(bytes, nil, obj)]: the filled object and its kind *)
    yaml_Decode : string -> (Unstructured * GroupVersionKind) + error;
    clientcmd_BuildConfigFromFlags : string -> string -> Config + error;
    discovery_NewDiscoveryClientForConfig : Config -> DiscoveryClient + error }.

(** The remote control plane behind [dynamic.Interface] and the discovery
    client: every call may change the world and may fail. *)
Record Cluster (W : Type) : Type :=
  { ServerGroupsAndResources : DiscoveryClient -> W -> (Catalogue + error) * W;
    Create : GroupVersionResource -> string -> Unstructured -> W -> option error * W;
    Get : GroupVersionResource -> string -> string -> W -> (Unstructured + error) * W;
    Delete : GroupVersionResource -> string -> string -> W -> option error * W;
    (** [time.Sleep] of so many seconds *)
    Sleep : nat -> W -> W }.
Arguments ServerGroupsAndResources {W} _ _ _.
Arguments Create {W} _ _ _ _ _.
Arguments Get {W} _ _ _ _ _.
Arguments Delete {W} _ _ _ _ _.
Arguments Sleep {W} _ _ _.

(** ** The deferred REST mapper over a memory-cached discovery client *)

Module restmapper.

Record memCacheClient : Type :=
  { delegate : DiscoveryClient; cached : option Catalogue }.

(** [memory.NewMemCacheClient]: nothing cached yet. *)
Definition NewMemCacheClient (dc : DiscoveryClient) : memCacheClient :=
  {| delegate := dc; cached := None |}.

Record DeferredDiscoveryRESTMapper : Type := { cl : memCacheClient }.

Definition NewDeferredDiscoveryRESTMapper (c : memCacheClient)
  : DeferredDiscoveryRESTMapper := {| cl := c |}.

Definition matches (gk : GroupKind) (version : string) (r : APIResource) : bool :=
  bool_decide (api_Group r = gk_Group gk) &&
  bool_decide (api_Kind r = gk_Kind gk) &&
  bool_decide (api_Version r = version).

Definition no_match (gk : GroupKind) (version : string) : error :=
  ErrorString ("no matches for kind " +:+ gk_Kind gk +:+ " in version " +:+
               gk_Group gk +:+ "/" +:+ version).

(** The plural resource name of the mapping. *)
Definition lookup_mapping (cat : Catalogue) (gk : GroupKind) (version : string)
  : string + error :=
  match List.find (matches gk version) cat with
  | Some r => inl (api_Name r)
  | None => inr (no_match gk version)
  end.

Section WithCluster.
Context {W : Type} (K : Cluster W).

(** [mapper.RESTMapping(gk, version)]: a mapper whose client has the
    catalogue answers locally; otherwise the catalogue is fetched
    once and kept. *)
Definition RESTMapping (m : DeferredDiscoveryRESTMapper)
    (gk : GroupKind) (version : string) (world : W)
  : (string + error) * DeferredDiscoveryRESTMapper * W :=
  match cached (cl m) with
  | Some cat => (lookup_mapping cat gk version, m, world)
  | None =>
      let '(r, world) := ServerGroupsAndResources K (delegate (cl m)) world in
      match r with
      | inr e => (inr e, m, world)
      | inl cat =>
          (lookup_mapping cat gk version,
           {| cl := {| delegate := delegate (cl m); cached := Some cat |} |},
           world)
      end
  end.
End WithCluster.

End restmapper.

(** ** The client *)

Section WithCollaborators.
Context {W : Type} (L : Libs) (K : Cluster W) (T : TemplateBodies).

(** [ActionCreateTemplates] *)
Definition ActionCreateTemplates : list ResourceTemplate :=
  [ {| ResourceName := "backup-create-namespace"; Template := mngClusterActCreateNS T |};
    {| ResourceName := "backup-create-serviceaccount"; Template := mngClusterActCreateSA T |};
    {| ResourceName := "backup-create-rolebinding"; Template := mngClusterActCreateRB T |};
    {| ResourceName := "backup-create-job"; Template := mngClusterActCreateJob T |} ].

(** [ViewCreateTemplates] *)
Definition ViewCreateTemplates : list ResourceTemplate :=
  [ {| ResourceName := "backup-create-clusterview"; Template := mngClusterViewJob T |} ].

(** [JobDeleteTemplates] *)
Definition JobDeleteTemplates : list ResourceTemplate :=
  [ {| ResourceName := "backup-delete-ns"; Template := mngClusterActDeleteNS T |} ].

(** [GetConfig] *)
Definition GetConfig (c : Client) : Config + error :=
  match clientcmd_BuildConfigFromFlags L EmptyString (KubeconfigPath c) with
  | inr err => inr err
  | inl config => inl config
  end.

(** [RenderYamlTemplate]: the buffer written so far and the error. *)
Definition RenderYamlTemplate (c : Client) (resourceName templatebody : string)
    (data : TemplateData) : string * option error :=
  let w := EmptyString in
  match template_Parse L resourceName (commonTemplates T +:+ templatebody) with
  | inr err =>
      (w, Some (ErrorString ("failed to parse template " +:+ resourceName +:+ ": "
                             +:+ Error err)))
  | inl tmpl =>
      let data := {| td_ResourceName := resourceName;
                     ClusterName := ClusterName data;
                     RecoveryPath := RecoveryPath data |} in
      let '(w, err) := template_Execute L tmpl data in
      match err with
      | Some err =>
          (w, Some (ErrorString ("failed to render template " +:+ resourceName +:+ ": "
                                 +:+ Error err)))
      | None => (w, None)
      end
  end.

(** [CreateKubernetesObjects] *)
Definition CreateKubernetesObjects (c : Client) (clusterName : string)
    (obj : Unstructured) (resource : GroupVersionResource) (world : W)
  : option error * W :=
  let '(err, world) := Create K resource clusterName obj world in
  match err with
  | Some err => (Some err, world)
  | None => (None, world)
  end.

(** The body of the loop of [LaunchKubernetesObjects] for one [item];
    [None] means that the loop goes on. *)
Definition LaunchKubernetesObjects_item (c : Client) (config : Config)
    (clusterName : string) (newdata : TemplateData) (item : ResourceTemplate)
    (world : W) : option error * W :=
  let '(w, err) := RenderYamlTemplate c (ResourceName item) (Template item) newdata in
  if match err with Some e => negb (IsAlreadyExists e) | None => false end
  then (err, world)
  else
    match yaml_Decode L w with
    | inr err => (Some err, world)
    | inl (obj, gvk) =>
        match discovery_NewDiscoveryClientForConfig L config with
        | inr err => (Some err, world)
        | inl discoveryClient =>
            let mapper := restmapper.NewDeferredDiscoveryRESTMapper
                            (restmapper.NewMemCacheClient discoveryClient) in
            let '(mapping, _, world) :=
              restmapper.RESTMapping K mapper (GroupKind_of gvk) (gvk_Version gvk) world in
            match mapping with
            | inr err => (Some err, world)
            | inl mapping_Resource =>
                let resource := {| Group := gvk_Group gvk;
                                   Version := gvk_Version gvk;
                                   Resource := mapping_Resource |} in
                CreateKubernetesObjects c clusterName obj resource world
            end
        end
    end.

(** [for _, item := range template] *)
Fixpoint LaunchKubernetesObjects_loop (c : Client) (config : Config)
    (clusterName : string) (newdata : TemplateData)
    (template : list ResourceTemplate) (world : W) : option error * W :=
  match template with
  | [] => (None, world)
  | item :: rest =>
      let newdata := {| td_ResourceName := ResourceName item;
                        ClusterName := ClusterName newdata;
                        RecoveryPath := RecoveryPath newdata |} in
      match LaunchKubernetesObjects_item c config clusterName newdata item world with
      | (Some err, world) => (Some err, world)
      | (None, world) =>
          LaunchKubernetesObjects_loop c config clusterName newdata rest world
      end
  end.

(** [LaunchKubernetesObjects] *)
Definition LaunchKubernetesObjects (c : Client) (clusterName : string)
    (template : list ResourceTemplate) (world : W) : option error * W :=
  match GetConfig c with
  | inr err => (Some err, world)
  | inl config =>
      let newdata := {| td_ResourceName := EmptyString;
                        ClusterName := clusterName;
                        RecoveryPath := BackupPath c |} in
      LaunchKubernetesObjects_loop c config clusterName newdata template world
  end.

(** [ManageObjects]: the view and the error. *)
Fixpoint ManageObjects_loop (clusterName : string) (gvr : GroupVersionResource)
    (template : list ResourceTemplate) (action : string) (world : W)
  : (option Unstructured * option error) * W :=
  match template with
  | [] => ((None, None), world)
  | items :: rest =>
      if decide (action = "get") then
        let '(r, world) := Get K gvr clusterName (ResourceName items) world in
        match r with
        | inr err => ((None, Some err), world)
        | inl view => ((Some view, None), world)
        end
      else if decide (action = "delete") then
        let '(err, world) := Delete K gvr clusterName (ResourceName items) world in
        match err with
        | Some err => ((None, Some err), world)
        | None => ManageObjects_loop clusterName gvr rest action world
        end
      else ((None, Some (ErrorString "no condition matched")), world)
  end.

Definition ManageObjects (c : Client) (clusterName : string)
    (template : list ResourceTemplate) (resourceType action : string) (world : W)
  : (option Unstructured * option error) * W :=
  let gvr := {| Group := "view.open-cluster-management.io";
                Version := "v1beta1";
                Resource := resourceType |} in
  ManageObjects_loop clusterName gvr template action world.
End WithCollaborators.

(** [CheckViewProcessing]: [status] and [message] are the two locals, both
    overwritten by every condition; each type assertion may panic. *)
Fixpoint CheckViewProcessing_loop (status message : string)
    (viewConditions : list value) : outcome string :=
  match viewConditions with
  | [] => Returned status
  | condition :: rest =>
      match condition with
      | VMap m =>
          match m !! "status" with
          | Some (VString status) =>
              match m !! "message" with
              | Some (VString message) => CheckViewProcessing_loop status message rest
              | _ => Panicked "interface conversion: interface {} is not string"
              end
          | _ => Panicked "interface conversion: interface {} is not string"
          end
      | _ => Panicked "interface conversion: interface {} is not map[string]interface {}"
      end
  end.

Definition CheckViewProcessing (c : Client) (viewConditions : list value)
  : outcome string :=
  CheckViewProcessing_loop EmptyString EmptyString viewConditions.

Section Poller.
Context {W : Type} (K : Cluster W) (T : TemplateBodies).

(** The loop of [CheckStatus] with [n] iterations left ([n = 10 - i]). *)
Fixpoint CheckStatus_loop (c : Client) (resourceType clusterName : string)
    (n : nat) (world : W) : outcome (option error) * W :=
  match n with
  | O => (Returned None, world)
  | S n' =>
      let world := Sleep K 1 world in
      let '((clusterView, err), world) :=
        ManageObjects K c clusterName (ViewCreateTemplates T) resourceType "get" world in
      match err with
      | Some err => (Returned (Some err), world)
      | None =>
          match clusterView with
          | None => (Panicked "invalid memory address or nil pointer dereference", world)
          | Some clusterView =>
              let '(conditions, exists_, err) :=
                unstructured.NestedSlice (Object clusterView) ["status"; "conditions"] in
              match err with
              | Some err => (Returned (Some err), world)
              | None =>
                  if negb exists_
                  then (Returned (Some (ErrorString "couldn't find the intended structure")),
                        world)
                  else
                    match CheckViewProcessing c conditions with
                    | Panicked msg => (Panicked msg, world)
                    | Returned value =>
                        if decide (value = "True")
                        then (Returned None, world)
                        else CheckStatus_loop c resourceType clusterName n' world
                    end
              end
          end
      end
  end.

(** [CheckStatus] *)
Definition CheckStatus (c : Client) (resourceType clusterName : string) (world : W)
  : outcome (option error) * W :=
  CheckStatus_loop c resourceType clusterName 10 world.
End Poller.

(** ** Observing the calls made on the remote API *)

(** One call on the remote API with its response. *)
Inductive Call : Type :=
  | CallDiscovery (dc : DiscoveryClient) (resp : Catalogue + error)
  | CallCreate (gvr : GroupVersionResource) (ns : string) (obj : Unstructured)
               (resp : option error)
  | CallGet (gvr : GroupVersionResource) (ns name : string)
            (resp : Unstructured + error)
  | CallDelete (gvr : GroupVersionResource) (ns name : string)
               (resp : option error)
  | CallSleep (seconds : nat).

(** [recording K] behaves as [K] and appends every call to a log kept next
    to the world, oldest call first. *)
Definition recording {W : Type} (K : Cluster W) : Cluster (W * list Call) :=
  {| ServerGroupsAndResources dc wl :=
       let '(r, w) := ServerGroupsAndResources K dc (fst wl) in
       (r, (w, snd wl ++ [CallDiscovery dc r]));
     Create gvr ns obj wl :=
       let '(r, w) := Create K gvr ns obj (fst wl) in
       (r, (w, snd wl ++ [CallCreate gvr ns obj r]));
     Get gvr ns name wl :=
       let '(r, w) := Get K gvr ns name (fst wl) in
       (r, (w, snd wl ++ [CallGet gvr ns name r]));
     Delete gvr ns name wl :=
       let '(r, w) := Delete K gvr ns name (fst wl) in
       (r, (w, snd wl ++ [CallDelete gvr ns name r]));
     Sleep n wl := (Sleep K n (fst wl), snd wl ++ [CallSleep n]) |}.

Definition is_create (c : Call) : bool :=
  match c with CallCreate _ _ _ _ => true | _ => false end.
Definition is_get (c : Call) : bool :=
  match c with CallGet _ _ _ _ => true | _ => false end.
Definition is_delete (c : Call) : bool :=
  match c with CallDelete _ _ _ _ => true | _ => false end.
Definition is_discovery (c : Call) : bool :=
  match c with CallDiscovery _ _ => true | _ => false end.

Definition create_calls (log : list Call) : list Call := List.filter is_create log.
Definition get_calls (log : list Call) : list Call := List.filter is_get log.
Definition delete_calls (log : list Call) : list Call := List.filter is_delete log.
Definition discovery_calls (log : list Call) : list Call := List.filter is_discovery log.

(** What the dispatcher is about to create for [item]: the document
    decoded from the rendered template, with its kind. *)
Definition planned (L : Libs) (T : TemplateBodies) (c : Client)
    (clusterName : string) (item : ResourceTemplate)
  : option (Unstructured * GroupVersionKind) :=
  match RenderYamlTemplate L T c (ResourceName item) (Template item)
          {| td_ResourceName := ResourceName item;
             ClusterName := clusterName;
             RecoveryPath := BackupPath c |} with
  | (w, None) =>
      match yaml_Decode L w with
      | inl p => Some p
      | inr _ => None
      end
  | (_, Some _) => None
  end.

(** [call] is the create of the document planned for [item], in the
    namespace of the cluster and in the collection of its kind. *)
Definition creates_item (L : Libs) (T : TemplateBodies) (c : Client)
    (clusterName : string) (call : Call) (item : ResourceTemplate) : Prop :=
  exists obj gvk res resp,
    planned L T c clusterName item = Some (obj, gvk) /\
    call = CallCreate {| Group := gvk_Group gvk; Version := gvk_Version gvk;
                         Resource := res |} clusterName obj resp.

(** ** An in-memory cluster *)

Module fake.

(** The objects of the cluster, each under its collection, namespace and
    name; a key occurs once. A collection is told by its resource name
    alone, whatever its group and version. *)
Definition World : Type := list (string * string * string * Unstructured).

Definition empty : World := [].

Fixpoint find_object (k : string * string * string) (w : World)
  : option Unstructured :=
  match w with
  | [] => None
  | (k', obj) :: rest => if decide (k = k') then Some obj else find_object k rest
  end.

Fixpoint remove_object (k : string * string * string) (w : World) : World :=
  match w with
  | [] => []
  | (k', obj) :: rest =>
      if decide (k = k') then remove_object k rest
      else (k', obj) :: remove_object k rest
  end.

Definition catalogue : Catalogue :=
  [ {| api_Group := "action.open-cluster-management.io"; api_Version := "v1beta1";
       api_Kind := "ManagedClusterAction"; api_Name := "managedclusteractions" |};
    {| api_Group := "view.open-cluster-management.io"; api_Version := "v1beta1";
       api_Kind := "ManagedClusterView"; api_Name := "managedclusterviews" |} ].

Definition already_exists (res name : string) : error :=
  StatusError StatusReasonAlreadyExists (res +:+ " " +:+ name +:+ " already exists").

Definition not_found (res name : string) : error :=
  StatusError StatusReasonNotFound (res +:+ " " +:+ name +:+ " not found").

Definition key (gvr : GroupVersionResource) (ns name : string)
  : string * string * string := (Resource gvr, ns, name).

(** Create refuses a name that is taken, get and delete refuse a name that
    is absent; discovery always answers with [catalogue]. *)
Definition cluster : Cluster World :=
  {| ServerGroupsAndResources dc w := (inl catalogue, w);
     Create gvr ns obj w :=
       match find_object (key gvr ns (unstructured.GetName obj)) w with
       | Some _ => (Some (already_exists (Resource gvr) (unstructured.GetName obj)), w)
       | None => (None, w ++ [(key gvr ns (unstructured.GetName obj), obj)])
       end;
     Get gvr ns name w :=
       match find_object (key gvr ns name) w with
       | Some obj => (inl obj, w)
       | None => (inr (not_found (Resource gvr) name), w)
       end;
     Delete gvr ns name w :=
       match find_object (key gvr ns name) w with
       | Some _ => (None, remove_object (key gvr ns name) w)
       | None => (Some (not_found (Resource gvr) name), w)
       end;
     Sleep n w := w |}.

Definition action_kind : GroupVersionKind :=
  {| gvk_Group := "action.open-cluster-management.io"; gvk_Version := "v1beta1";
     gvk_Kind := "ManagedClusterAction" |}.

(** A document that has a name and nothing else. *)
Definition named (name : string) : Unstructured :=
  {| Object := {[ "metadata" := VMap {[ "name" := VString name ]} ]} |}.

(** Stand-ins for the libraries: an empty template text does not parse,
    every other template renders to the resource name, and the rendered
    bytes decode to the ManagedClusterAction of that name. *)
Definition libs : Libs :=
  {| Tmpl := string;
     template_Parse name text :=
       if decide (text = EmptyString)
       then inr (ErrorString "template: unexpected EOF")
       else inl text;
     template_Execute tmpl data := (td_ResourceName data, None);
     yaml_Decode bytes := inl (named bytes, action_kind);
     clientcmd_BuildConfigFromFlags masterUrl path := inl {| Host := path |};
     discovery_NewDiscoveryClientForConfig config := inl {| restConfig := config |} |}.

Definition bodies : TemplateBodies :=
  {| commonTemplates := "{{ define metadata }}";
     mngClusterActCreateNS := "kind: Namespace";
     mngClusterActCreateSA := "kind: ServiceAccount";
     mngClusterActCreateRB := "kind: ClusterRoleBinding";
     mngClusterActCreateJob := "kind: Job";
     mngClusterViewJob := "kind: ManagedClusterView";
     mngClusterActDeleteNS := "kind: Namespace" |}.

Definition client : Client :=
  {| Spoke := ["spoke1"]; BackupPath := "/var/recovery";
     KubeconfigPath := "/etc/kubeconfig" |}.

Definition condition (status message : string) : value :=
  VMap (<[ "status" := VString status ]> {[ "message" := VString message ]}).

(** A view whose status carries the conditions [conds]. *)
Definition view (conds : list value) : Unstructured :=
  {| Object := {[ "status" := VMap {[ "conditions" := VList conds ]} ]} |}.

(** A world whose only object is the job view of [spoke1]. *)
Definition world_with_view (conds : list value) : World :=
  [ ((MCV, "spoke1", "backup-create-clusterview"), view conds) ].

(** As [libs], but the decoder refuses the rendering of the service
    account template. *)
Definition libs_bad_document : Libs :=
  {| Tmpl := string;
     template_Parse name text := template_Parse libs name text;
     template_Execute tmpl data := template_Execute libs tmpl data;
     yaml_Decode bytes :=
       if decide (bytes = "backup-create-serviceaccount")
       then inr (ErrorString "yaml: unexpected end")
       else yaml_Decode libs bytes;
     clientcmd_BuildConfigFromFlags := clientcmd_BuildConfigFromFlags libs;
     discovery_NewDiscoveryClientForConfig :=
       discovery_NewDiscoveryClientForConfig libs |}.

(** A world in which the action [name] of [spoke1] is there already. *)
Definition world_with_action (name : string) : World :=
  [ ((MCA, "spoke1", name), named name) ].

End fake.

(** ** A cluster that follows a script *)

Module scripted.

(** The answers to the gets still to come. *)
Definition World : Type := list (Unstructured + error).

(** Each get takes the next answer of the script, and finds nothing once
    the script is over; creates and deletes are accepted and change
    nothing. *)
Definition cluster : Cluster World :=
  {| ServerGroupsAndResources dc w := (inl fake.catalogue, w);
     Create gvr ns obj w := (None, w);
     Get gvr ns name w :=
       match w with
       | r :: rest => (r, rest)
       | [] => (inr (fake.not_found (Resource gvr) name), [])
       end;
     Delete gvr ns name w := (None, w);
     Sleep n w := w |}.

End scripted.

(** ** Vocabulary of the statements *)

(** The status of a condition that [CheckViewProcessing] reads without a
    panic: a map whose [status] and [message] are both strings. *)
Definition condition_status (v : value) : option string :=
  match v with
  | VMap m =>
      match m !! "status", m !! "message" with
      | Some (VString s), Some (VString _) => Some s
      | _, _ => None
      end
  | _ => None
  end.

Definition well_formed (conds : list value) : Prop :=
  Forall (fun v => is_Some (condition_status v)) conds.

(** The status of the last condition of the list. *)
Definition last_status (conds : list value) : option string :=
  last conds ≫= condition_status.

(** The collection [ManageObjects] addresses for [resourceType]. *)
Definition view_gvr (resourceType : string) : GroupVersionResource :=
  {| Group := "view.open-cluster-management.io"; Version := "v1beta1";
     Resource := resourceType |}.

(** The fetch of one polling attempt started in [world]: the pause, then
    the get of the job view. *)
Definition fetch {W : Type} (K : Cluster W) (resourceType clusterName : string)
    (world : W) : (Unstructured + error) * W :=
  Get K (view_gvr resourceType) clusterName "backup-create-clusterview"
      (Sleep K 1 world).

(** The calls of one fetch that got the response [r]. *)
Definition fetch_calls (resourceType clusterName : string)
    (r : Unstructured + error) : list Call :=
  [CallSleep 1;
   CallGet (view_gvr resourceType) clusterName "backup-create-clusterview" r].

(** The condition list of a view, when it is there. *)
Definition conditions_of (view : Unstructured) : list value * bool * option error :=
  unstructured.NestedSlice (Object view) ["status"; "conditions"].

(** The data the dispatcher renders [item] with. *)
Definition data_for (c : Client) (clusterName : string) (item : ResourceTemplate)
  : TemplateData :=
  {| td_ResourceName := ResourceName item;
     ClusterName := clusterName;
     RecoveryPath := BackupPath c |}.

(** The calls that the processing of one template can leave in the log,
    with its verdict. *)
Inductive item_trace (L : Libs) (T : TemplateBodies) (c : Client)
    (clusterName : string) (item : ResourceTemplate)
  : option error -> list Call -> Prop :=
  | item_local e :
      item_trace L T c clusterName item (Some e) []
  | item_discovery_failed dc e :
      item_trace L T c clusterName item (Some e) [CallDiscovery dc (inr e)]
  | item_mapping_failed dc cat e :
      item_trace L T c clusterName item (Some e) [CallDiscovery dc (inl cat)]
  | item_create dc cat call resp :
      creates_item L T c clusterName call item ->
      (exists gvr ns obj, call = CallCreate gvr ns obj resp) ->
      item_trace L T c clusterName item resp [CallDiscovery dc (inl cat); call].

(** Where the error [e] of a template that fails comes from, with the calls
    its processing leaves in the log. The error of the rendering carries
    the name of the template; every other error is the one that the
    decoder, the constructor of the discovery client, the discovery call,
    the mapping or the create call gave, as it was given. *)
Inductive item_failure (L : Libs) (T : TemplateBodies) (c : Client)
    (config : Config) (clusterName : string) (item : ResourceTemplate)
  : error -> list Call -> Prop :=
  | failure_render bytes e :
      RenderYamlTemplate L T c (ResourceName item) (Template item)
        (data_for c clusterName item) = (bytes, Some e) ->
      mentions (ResourceName item) (Error e) ->
      item_failure L T c config clusterName item e []
  | failure_decode bytes e :
      RenderYamlTemplate L T c (ResourceName item) (Template item)
        (data_for c clusterName item) = (bytes, None) ->
      yaml_Decode L bytes = inr e ->
      item_failure L T c config clusterName item e []
  | failure_client obj gvk e :
      planned L T c clusterName item = Some (obj, gvk) ->
      discovery_NewDiscoveryClientForConfig L config = inr e ->
      item_failure L T c config clusterName item e []
  | failure_discovery obj gvk dc e :
      planned L T c clusterName item = Some (obj, gvk) ->
      discovery_NewDiscoveryClientForConfig L config = inl dc ->
      item_failure L T c config clusterName item e [CallDiscovery dc (inr e)]
  | failure_mapping obj gvk dc cat e :
      planned L T c clusterName item = Some (obj, gvk) ->
      discovery_NewDiscoveryClientForConfig L config = inl dc ->
      restmapper.lookup_mapping cat (GroupKind_of gvk) (gvk_Version gvk) = inr e ->
      item_failure L T c config clusterName item e [CallDiscovery dc (inl cat)]
  | failure_create obj gvk dc cat res e :
      planned L T c clusterName item = Some (obj, gvk) ->
      discovery_NewDiscoveryClientForConfig L config = inl dc ->
      restmapper.lookup_mapping cat (GroupKind_of gvk) (gvk_Version gvk) = inl res ->
      item_failure L T c config clusterName item e
        [CallDiscovery dc (inl cat);
         CallCreate {| Group := gvk_Group gvk; Version := gvk_Version gvk;
                       Resource := res |} clusterName obj (Some e)].

(** The calls of a whole dispatch: the traces of the templates processed,
    in order, up to and including the first that fails. *)
Inductive dispatch_trace (L : Libs) (T : TemplateBodies) (c : Client)
    (clusterName : string)
  : list ResourceTemplate -> option error -> list Call -> Prop :=
  | dispatch_done :
      dispatch_trace L T c clusterName [] None []
  | dispatch_abort item rest e tr :
      item_trace L T c clusterName item (Some e) tr ->
      dispatch_trace L T c clusterName (item :: rest) (Some e) tr
  | dispatch_next item rest tr r tr' :
      item_trace L T c clusterName item None tr ->
      dispatch_trace L T c clusterName rest r tr' ->
      dispatch_trace L T c clusterName (item :: rest) r (tr ++ tr').

(** ** More of the client *)

Section SpokeCluster.
Context {W : Type} (K : Cluster W).

(** The loop of [SpokeClusterExists] over the conditions: [Returned true]
    is the [return true] of the loop body, [Returned false] the end of the
    loop. *)
Fixpoint SpokeClusterExists_loop (conditions : list value) : outcome bool :=
  match conditions with
  | [] => Returned false
  | v :: rest =>
      match v with
      | VMap m =>
          match m !! "type" with
          | Some (VString key) =>
              if decide (key = "ManagedClusterConditionAvailable") then
                match m !! "status" with
                | Some (VString val) =>
                    if decide (val = "True") then Returned true
                    else SpokeClusterExists_loop rest
                | _ => SpokeClusterExists_loop rest
                end
              else SpokeClusterExists_loop rest
          | _ => SpokeClusterExists_loop rest
          end
      | _ => Panicked "interface conversion: interface {} is not map[string]interface {}"
      end
  end.

(** [SpokeClusterExists]; the managed clusters are not namespaced. *)
Definition SpokeClusterExists (c : Client) (name : string) (world : W)
  : outcome bool * W :=
  let gvr := {| Group := "cluster.open-cluster-management.io";
                Version := "v1";
                Resource := "managedclusters" |} in
  let '(r, world) := Get K gvr EmptyString name world in
  match r with
  | inr err => (Returned false, world)
  | inl foundSpokeCluster =>
      let '(status, _, err) :=
        unstructured.NestedMap (Object foundSpokeCluster) ["status"] in
      match err with
      | Some err => (Returned false, world)
      | None =>
          match status with
          | None => (Returned false, world)
          | Some status =>
              match status !! "conditions" with
              | None => (Returned false, world)
              | Some (VList conditions) =>
                  (SpokeClusterExists_loop conditions, world)
              | Some _ =>
                  (Panicked "interface conversion: interface {} is not []interface {}",
                   world)
              end
          end
      end
  end.
End SpokeCluster.

(** ** The policy revision of the client

    The first revision of [pkg/client/init.go] backs up a spoke through
    policies: it reads the images to back up from the hub and creates a
    placement binding and a policy for them. *)

Module policy.

Definition LIVE_POLICY : string := "policy-backup-live-image".
Definition RELEASE_POLICY : string := "policy-backup-release-image".

Record Client : Type :=
  { KubeconfigPath : string; Spoke : string; BinaryImage : string;
    BackupPath : string }.

Record BackupImageSpoke : Type :=
  { SpokeName : string; PolicyName : string; ImageBinaryImageName : string;
    ImageURL : string; RecoveryPartitionPath : string }.

Record PlacementBinding : Type :=
  { PlacementName : string; pb_PolicyName : string }.

(** What a template is executed on. *)
Inductive TemplateArg : Type :=
  | BindingArg (b : PlacementBinding)
  | BackupArg (b : BackupImageSpoke).

(** The template texts, kept in a file of their own. *)
Record Templates : Type :=
  { policyBackupPlacementBindingTemplate : string;
    policyBackupLiveImageTemplate : string;
    policySpokePlacementRuleTemplate : string;
    policyBackupReleaseImageTemplate : string }.

(** text/template as this revision uses it, and the YAML decoder.
    [template_Parse] is [tmpl.Parse(text)]: the parsed template, or the
    error that leaves [tmpl] as it was. *)
Record Libs : Type :=
  { Tmpl : Type;
    template_New : string -> Tmpl;
    template_Parse : Tmpl -> string -> Tmpl + error;
    template_Execute : Tmpl -> TemplateArg -> string * option error;
    yaml_Decode : string -> (Unstructured * GroupVersionKind) + error }.

Definition hub_namespace : string := "open-cluster-management".

Definition agentserviceconfigs : GroupVersionResource :=
  {| Group := "agent-install.openshift.io"; Version := "v1beta1";
     Resource := "agentserviceconfigs" |}.
Definition clusterdeployments : GroupVersionResource :=
  {| Group := "hive.openshift.io"; Version := "v1";
     Resource := "clusterdeployments" |}.
Definition clusterimagesets : GroupVersionResource :=
  {| Group := "hive.openshift.io"; Version := "v1";
     Resource := "clusterimagesets" |}.
Definition agentclusterinstalls : GroupVersionResource :=
  {| Group := "extensions.hive.openshift.io"; Version := "v1beta1";
     Resource := "agentclusterinstalls" |}.
Definition placementbindings : GroupVersionResource :=
  {| Group := "policy.open-cluster-management.io"; Version := "v1";
     Resource := "placementbindings" |}.
Definition policies : GroupVersionResource :=
  {| Group := "policy.open-cluster-management.io"; Version := "v1";
     Resource := "policies" |}.
Definition placementrules : GroupVersionResource :=
  {| Group := "apps.open-cluster-management.io"; Version := "v1";
     Resource := "placementrules" |}.

(** The loop of [GetRootFsFromVersion] over the images: [Returned None]
    is the end of the loop. *)
Fixpoint GetRootFsFromVersion_loop (version : string) (images : list value)
  : outcome (option string) :=
  match images with
  | [] => Returned None
  | v :: rest =>
      match v with
      | VMap m =>
          match m !! "openshiftVersion" with
          | Some (VString key) =>
              if decide (key = version) then
                match m !! "rootFSUrl" with
                | Some (VString val) => Returned (Some val)
                | _ => Panicked "interface conversion: interface {} is not string"
                end
              else GetRootFsFromVersion_loop version rest
          | _ => GetRootFsFromVersion_loop version rest
          end
      | _ => Panicked "interface conversion: interface {} is not map[string]interface {}"
      end
  end.

Section WithCluster.
Context {W : Type} (L : Libs) (K : Cluster W) (T : Templates).

(** [GetRootFsFromVersion] *)
Definition GetRootFsFromVersion (c : Client) (version : string) (world : W)
  : outcome (string * option error) * W :=
  let '(r, world) := Get K agentserviceconfigs EmptyString "agent" world in
  match r with
  | inr err => (Returned (EmptyString, Some err), world)
  | inl foundConfig =>
      let '(spec, _, _) := unstructured.NestedMap (Object foundConfig) ["spec"] in
      match unstructured.index spec "osImages" with
      | VList images =>
          match GetRootFsFromVersion_loop version images with
          | Panicked msg => (Panicked msg, world)
          | Returned (Some val) => (Returned (val, None), world)
          | Returned None => (Returned (EmptyString, None), world)
          end
      | _ => (Panicked "interface conversion: interface {} is not []interface {}", world)
      end
  end.

(** [GetRootFSUrl]; the labels hold a key at most once, so the loop over
    them is a lookup. *)
Definition GetRootFSUrl (c : Client) (world : W)
  : outcome (string * option error) * W :=
  let '(r, world) := Get K clusterdeployments (Spoke c) (Spoke c) world in
  match r with
  | inr err => (Returned (EmptyString, Some err), world)
  | inl foundSpokeCluster =>
      let '(metadata, _, _) :=
        unstructured.NestedMap (Object foundSpokeCluster) ["metadata"] in
      match unstructured.index metadata "labels" with
      | VMap labels =>
          match labels !! "hive.openshift.io/version-major-minor" with
          | Some (VString version) =>
              if decide (version = EmptyString)
              then (Returned (EmptyString, None), world)
              else
                match GetRootFsFromVersion c version world with
                | (Panicked msg, world) => (Panicked msg, world)
                | (Returned (rootfs, Some err), world) =>
                    (Returned (EmptyString, Some err), world)
                | (Returned (rootfs, None), world) => (Returned (rootfs, None), world)
                end
          | Some _ => (Panicked "interface conversion: interface {} is not string", world)
          | None => (Returned (EmptyString, None), world)
          end
      | _ => (Panicked "interface conversion: interface {} is not map[string]interface {}",
              world)
      end
  end.

(** [GetImageFromImageSet] *)
Definition GetImageFromImageSet (c : Client) (name : string) (world : W)
  : outcome (string * option error) * W :=
  let '(r, world) := Get K clusterimagesets EmptyString name world in
  match r with
  | inr err => (Returned (EmptyString, Some err), world)
  | inl foundImageset =>
      let '(spec, _, _) := unstructured.NestedMap (Object foundImageset) ["spec"] in
      match unstructured.index spec "releaseImage" with
      | VNull => (Returned (EmptyString, None), world)
      | VString release => (Returned (release, None), world)
      | _ => (Panicked "interface conversion: interface {} is not string", world)
      end
  end.

(** [GetReleaseImage] *)
Definition GetReleaseImage (c : Client) (world : W)
  : outcome (string * option error) * W :=
  let '(r, world) := Get K agentclusterinstalls (Spoke c) (Spoke c) world in
  match r with
  | inr err => (Returned (EmptyString, Some err), world)
  | inl foundSpokeCluster =>
      let '(spec, _, _) := unstructured.NestedMap (Object foundSpokeCluster) ["spec"] in
      match unstructured.index spec "imageSetRef" with
      | VMap imageSetRef =>
          match imageSetRef !! "name" with
          | Some (VString clusterImageSetName) =>
              if decide (clusterImageSetName = EmptyString)
              then (Returned (EmptyString, None), world)
              else
                match GetImageFromImageSet c clusterImageSetName world with
                | (Panicked msg, world) => (Panicked msg, world)
                | (Returned (releaseImage, Some err), world) =>
                    (Returned (EmptyString, Some err), world)
                | (Returned (releaseImage, None), world) =>
                    (Returned (releaseImage, None), world)
                end
          | _ => (Panicked "interface conversion: interface {} is not string", world)
          end
      | _ => (Panicked "interface conversion: interface {} is not map[string]interface {}",
              world)
      end
  end.

(** The steps that the four creating functions share: the template is
    made and parsed (the outcome of the parse is not looked at), executed
    on [arg], decoded, and the document is created in [gvr] in the hub
    namespace. *)
Definition create_from_template (templateName text : string) (arg : TemplateArg)
    (gvr : GroupVersionResource) (world : W) : option error * W :=
  let tmpl := template_New L templateName in
  let tmpl := match template_Parse L tmpl text with
              | inl parsed => parsed
              | inr _ => tmpl
              end in
  let '(backupPolicy, err) := template_Execute L tmpl arg in
  match err with
  | Some err => (Some err, world)
  | None =>
      match yaml_Decode L backupPolicy with
      | inr err => (Some err, world)
      | inl (finalPolicy, _) =>
          let '(err, world) := Create K gvr hub_namespace finalPolicy world in
          match err with
          | Some err => (Some err, world)
          | None => (None, world)
          end
      end
  end.

(** [CreatePlacementBinding] *)
Definition CreatePlacementBinding (c : Client)
    (PlacementBindingName PlacementRuleName : string) (world : W)
  : option error * W :=
  create_from_template "policyBackupPlacementBindingTemplate"
    (policyBackupPlacementBindingTemplate T)
    (BindingArg {| PlacementName := PlacementBindingName;
                   pb_PolicyName := PlacementRuleName |})
    placementbindings world.

(** [LaunchLiveImageBackup]: the verdict on the placement binding is
    dropped. *)
Definition LaunchLiveImageBackup (c : Client) (liveImg : string) (world : W)
  : option error * W :=
  let '(_, world) :=
    CreatePlacementBinding c "placement-binding-backup-live-image" LIVE_POLICY world in
  create_from_template "policyBackupLiveImageTemplate"
    (policyBackupLiveImageTemplate T)
    (BackupArg {| SpokeName := Spoke c; PolicyName := LIVE_POLICY;
                  ImageBinaryImageName := BinaryImage c; ImageURL := liveImg;
                  RecoveryPartitionPath := BackupPath c |})
    policies world.

(** [CreatePlacementRule] *)
Definition CreatePlacementRule (c : Client) (world : W) : option error * W :=
  create_from_template "policySpokePlacementRuleTemplate"
    (policySpokePlacementRuleTemplate T)
    (BackupArg {| SpokeName := Spoke c; PolicyName := EmptyString;
                  ImageBinaryImageName := EmptyString; ImageURL := EmptyString;
                  RecoveryPartitionPath := EmptyString |})
    placementrules world.

(** [LaunchReleaseImageBackup] *)
Definition LaunchReleaseImageBackup (c : Client) (releaseImg : string) (world : W)
  : option error * W :=
  let '(_, world) :=
    CreatePlacementBinding c "placement-binding-backup-release-image" RELEASE_POLICY
      world in
  create_from_template "policyBackupReleaseImageTemplate"
    (policyBackupReleaseImageTemplate T)
    (BackupArg {| SpokeName := Spoke c; PolicyName := RELEASE_POLICY;
                  ImageBinaryImageName := BinaryImage c; ImageURL := releaseImg;
                  RecoveryPartitionPath := BackupPath c |})
    policies world.

(** [RemovePreviousResources]: the loop over [PoliciesList]. The error of
    the get is dropped; a policy is there when the get gave an object. *)
Fixpoint RemovePreviousResources_loop (PoliciesList : list string) (world : W)
  : option error * W :=
  match PoliciesList with
  | [] => (None, world)
  | policy :: rest =>
      let '(resource, world) := Get K policies hub_namespace policy world in
      match resource with
      | inl _ =>
          let '(err, world) := Delete K policies hub_namespace policy world in
          match err with
          | Some err => (Some err, world)
          | None => RemovePreviousResources_loop rest world
          end
      | inr _ => RemovePreviousResources_loop rest world
      end
  end.

Definition RemovePreviousResources (c : Client) (world : W) : option error * W :=
  RemovePreviousResources_loop [LIVE_POLICY; RELEASE_POLICY] world.
End WithCluster.

End policy.

(** ** Vocabulary of the further statements *)

(** The calls of a poller that got the responses [rs], attempt by
    attempt. *)
Definition poll_calls (resourceType clusterName : string)
    (rs : list (Unstructured + error)) : list Call :=
  concat (map (fetch_calls resourceType clusterName) rs).

(** What an attempt reads in a view it has found: the status returned by
    [CheckViewProcessing], when the conditions are there and are read
    without a panic. *)
Definition reading (c : Client) (view : Unstructured) : option string :=
  match conditions_of view with
  | (conds, true, None) =>
      match CheckViewProcessing c conds with
      | Returned s => Some s
      | Panicked _ => None
      end
  | _ => None
  end.

(** The response [r] is a view that reads a status other than ["True"]. *)
Definition reads_on (c : Client) (r : Unstructured + error) : Prop :=
  exists view s, r = inl view /\ reading c view = Some s /\ s <> "True".

(** The cluster answers the fetches that start in [w] with the views of
    [script], one after the other, passing through its worlds. *)
Fixpoint follows {W : Type} (K : Cluster W) (resourceType clusterName : string)
    (w : W) (script : list (Unstructured * W)) : Prop :=
  match script with
  | [] => True
  | (view, w1) :: rest =>
      fetch K resourceType clusterName w = (inl view, w1) /\
      follows K resourceType clusterName w1 rest
  end.

(** The delete that [ManageObjects] issues for [item]. *)
Definition delete_call (resourceType clusterName : string)
    (item : ResourceTemplate) (resp : option error) : Call :=
  CallDelete (view_gvr resourceType) clusterName (ResourceName item) resp.

Definition is_map (v : value) : Prop :=
  match v with VMap _ => True | _ => False end.

(** A condition that says that the managed cluster is available. *)
Definition available (v : value) : Prop :=
  exists m, v = VMap m /\
    m !! "type" = Some (VString "ManagedClusterConditionAvailable") /\
    m !! "status" = Some (VString "True").

Definition managedclusters : GroupVersionResource :=
  {| Group := "cluster.open-cluster-management.io"; Version := "v1";
     Resource := "managedclusters" |}.

(** An entry of [osImages] for [version] with the root file system [url]. *)
Definition image_for (version url : string) (v : value) : Prop :=
  exists m, v = VMap m /\
    m !! "openshiftVersion" = Some (VString version) /\
    m !! "rootFSUrl" = Some (VString url).

(** An entry of [osImages] that is a map and is not for [version]. *)
Definition image_not_for (version : string) (v : value) : Prop :=
  exists m, v = VMap m /\ m !! "openshiftVersion" <> Some (VString version).

(** The get and the delete of [RemovePreviousResources] for [policy]. *)
Definition policy_get (policy : string) (resp : Unstructured + error) : Call :=
  CallGet policy.policies policy.hub_namespace policy resp.
Definition policy_delete (policy : string) (resp : option error) : Call :=
  CallDelete policy.policies policy.hub_namespace policy resp.

(** ** Stand-ins for the policy revision *)

Module fake_policy.

(** Every template parses and renders to the name it was made with; the
    bytes decode to the document of that name. *)
Definition libs : policy.Libs :=
  {| policy.Tmpl := string;
     policy.template_New name := name;
     policy.template_Parse tmpl text := inl tmpl;
     policy.template_Execute tmpl arg := (tmpl, None);
     policy.yaml_Decode bytes := inl (fake.named bytes, fake.action_kind) |}.

Definition templates : policy.Templates :=
  {| policy.policyBackupPlacementBindingTemplate := "kind: PlacementBinding";
     policy.policyBackupLiveImageTemplate := "kind: Policy";
     policy.policySpokePlacementRuleTemplate := "kind: PlacementRule";
     policy.policyBackupReleaseImageTemplate := "kind: Policy" |}.

Definition client : policy.Client :=
  {| policy.KubeconfigPath := "/etc/kubeconfig"; policy.Spoke := "spoke1";
     policy.BinaryImage := "quay.io/backup:latest";
     policy.BackupPath := "/var/recovery" |}.

(** A document with the one field [field] under [spec]. *)
Definition with_spec (field : string) (v : value) : Unstructured :=
  {| Object := {[ "spec" := VMap {[ field := v ]} ]} |}.

Definition os_image (version url : string) : value :=
  VMap (<[ "openshiftVersion" := VString version ]> {[ "rootFSUrl" := VString url ]}).

(** A managed-cluster condition. *)
Definition cluster_condition (type status : string) : value :=
  VMap (<[ "type" := VString type ]> {[ "status" := VString status ]}).

End fake_policy.

(** The call was refused with the error [e]. *)
Definition refused (call : Call) (e : error) : Prop :=
  (exists gvr ns obj, call = CallCreate gvr ns obj (Some e)) \/
  (exists dc, call = CallDiscovery dc (inr e)).


(** The calls of [RemovePreviousResources] over a list of policies, with
    its result: for each policy one get, followed by one delete when the
    get gave an object; a delete that fails ends the run. *)
Inductive removal_trace : list string -> option error -> list Call -> Prop :=
  | removal_done :
      removal_trace [] None []
  | removal_absent p rest e r tr :
      removal_trace rest r tr ->
      removal_trace (p :: rest) r (policy_get p (inr e) :: tr)
  | removal_removed p rest obj r tr :
      removal_trace rest r tr ->
      removal_trace (p :: rest) r
        (policy_get p (inl obj) :: policy_delete p None :: tr)
  | removal_failed p rest obj e :
      removal_trace (p :: rest) (Some e)
        [policy_get p (inl obj); policy_delete p (Some e)].

(** What a creating step of the policy revision is about to create: the
    document decoded from the executed template, or the error that stops
    the step before any call. *)
Definition document_of (L : policy.Libs) (templateName text : string)
    (arg : policy.TemplateArg) : Unstructured + error :=
  let tmpl := policy.template_New L templateName in
  let tmpl := match policy.template_Parse L tmpl text with
              | inl parsed => parsed
              | inr _ => tmpl
              end in
  let '(bytes, err) := policy.template_Execute L tmpl arg in
  match err with
  | Some err => inr err
  | None =>
      match policy.yaml_Decode L bytes with
      | inr err => inr err
      | inl (doc, _) => inl doc
      end
  end.

(** The calls [tr] and the verdict [r] of a creating step for [doc] in the
    collection [gvr]: no call and the error of [doc] when there is no
    document; otherwise the one create of the document in the hub
    namespace, with [r] the response to it. *)
Definition step_calls (doc : Unstructured + error) (gvr : GroupVersionResource)
    (r : option error) (tr : list Call) : Prop :=
  match doc with
  | inr e => r = Some e /\ tr = []
  | inl obj => tr = [CallCreate gvr policy.hub_namespace obj r]
  end.

(** The calls [log] and the result [r] of a backup launch: the step for
    the placement binding, with a verdict [rb] of its own, and then the
    step for the policy, whose verdict is the result. *)
Definition backup_run (bindingDoc policyDoc : Unstructured + error)
    (r : option error) (log : list Call) : Prop :=
  exists rb tb tp,
    log = tb ++ tp /\
    step_calls bindingDoc policy.placementbindings rb tb /\
    step_calls policyDoc policy.policies r tp.

(** The arguments of the templates of the backup launches. *)
Definition binding_arg (bindingName policyName : string) : policy.TemplateArg :=
  policy.BindingArg {| policy.PlacementName := bindingName;
                       policy.pb_PolicyName := policyName |}.
Definition backup_arg (c : policy.Client) (policyName image : string)
  : policy.TemplateArg :=
  policy.BackupArg {| policy.SpokeName := policy.Spoke c;
                      policy.PolicyName := policyName;
                      policy.ImageBinaryImageName := policy.BinaryImage c;
                      policy.ImageURL := image;
                      policy.RecoveryPartitionPath := policy.BackupPath c |}.

(** * Properties *)

(** ** The renderer *)

Section Renderer.
Context (L : Libs) (T : TemplateBodies).

Lemma RenderYamlTemplate_error_plain c name body data w e :
  RenderYamlTemplate L T c name body data = (w, Some e) ->
  IsAlreadyExists e = false.
Proof.
  unfold RenderYamlTemplate.
  destruct (template_Parse L name _) as [tmpl|perr].
  - destruct (template_Execute L tmpl _) as [w' [xerr|]]; intros [= <- <-]; reflexivity.
  - intros [= <- <-]; reflexivity.
Qed.

Lemma mentions_middle pre name post : mentions name (pre +:+ name +:+ post).
Proof. exists pre, post; reflexivity. Qed.

(** C9. Rendering parses the common preamble followed by the body under
    the resource name. It fails exactly when that parse fails or when the
    execution of the parsed template on the data (with the resource name
    filled in) fails; every error it returns names the template; otherwise
    it returns the bytes the execution wrote. The result depends on the
    name, the body, the cluster name and the recovery path only. *)
Theorem RenderYamlTemplate_contract (c : Client) (name body : string)
    (data : TemplateData) :
  let data' := {| td_ResourceName := name; ClusterName := ClusterName data;
                  RecoveryPath := RecoveryPath data |} in
  let parse_fails :=
    exists perr, template_Parse L name (commonTemplates T +:+ body) = inr perr in
  let execute_fails :=
    exists tmpl w xerr,
      template_Parse L name (commonTemplates T +:+ body) = inl tmpl /\
      template_Execute L tmpl data' = (w, Some xerr) in
  ((RenderYamlTemplate L T c name body data).2 <> None <->
     parse_fails \/ execute_fails) /\
  (forall e, (RenderYamlTemplate L T c name body data).2 = Some e ->
     mentions name (Error e)) /\
  (forall tmpl w,
     template_Parse L name (commonTemplates T +:+ body) = inl tmpl ->
     template_Execute L tmpl data' = (w, None) ->
     RenderYamlTemplate L T c name body data = (w, None)) /\
  (forall c' other,
     ClusterName other = ClusterName data ->
     RecoveryPath other = RecoveryPath data ->
     RenderYamlTemplate L T c' name body other =
     RenderYamlTemplate L T c name body data).
Proof.
  cbn zeta. unfold RenderYamlTemplate. repeat split.
  - destruct (template_Parse L name _) as [tmpl|perr] eqn:Hp.
    + destruct (template_Execute L tmpl _) as [w [xerr|]] eqn:Hx; cbn; intros H.
      * right. eauto.
      * congruence.
    + intros _. left. eauto.
  - intros [[perr Hp]|(tmpl & w & xerr & Hp & Hx)]; rewrite Hp.
    + cbn. congruence.
    + rewrite Hx. cbn. congruence.
  - intros e. destruct (template_Parse L name _) as [tmpl|perr].
    + destruct (template_Execute L tmpl _) as [w [xerr|]]; cbn; intros [= <-].
      apply (mentions_middle "failed to render template ").
    + cbn. intros [= <-]. apply (mentions_middle "failed to parse template ").
  - intros tmpl w -> ->. reflexivity.
  - intros c' other -> ->. reflexivity.
Qed.

End Renderer.

(** ** Reading the condition list *)

Lemma CheckViewProcessing_loop_snoc conds cond s :
  well_formed conds ->
  condition_status cond = Some s ->
  forall status message,
    CheckViewProcessing_loop status message (conds ++ [cond]) = Returned s.
Proof.
  intros Hwf Hc. induction Hwf as [|v conds [s' Hv] _ IH]; intros status message.
  - cbn. destruct cond as [| | | | |m]; try discriminate. cbn in Hc.
    destruct (m !! "status") as [[| | |st| |]|]; try discriminate.
    destruct (m !! "message") as [[| | |msg| |]|]; try discriminate.
    congruence.
  - cbn. destruct v as [| | | | |m]; try discriminate. cbn in Hv.
    destruct (m !! "status") as [[| | |st| |]|]; try discriminate.
    destruct (m !! "message") as [[| | |msg| |]|]; try discriminate.
    apply IH.
Qed.

Lemma well_formed_snoc conds cond :
  well_formed (conds ++ [cond]) ->
  well_formed conds /\ is_Some (condition_status cond).
Proof.
  unfold well_formed. rewrite Forall_app, Forall_singleton. tauto.
Qed.

Lemma CheckViewProcessing_default c conds :
  well_formed conds ->
  CheckViewProcessing c conds = Returned (default EmptyString (last_status conds)).
Proof.
  intros Hwf. unfold CheckViewProcessing, last_status.
  destruct (last conds) as [cond|] eqn:Hlast.
  - apply last_Some in Hlast as [conds' ->].
    apply well_formed_snoc in Hwf as [Hwf [s Hs]].
    cbn. rewrite Hs. cbn. apply CheckViewProcessing_loop_snoc; assumption.
  - apply last_None in Hlast as ->. reflexivity.
Qed.

Section PollerFacts.
Context {W : Type} (K : Cluster W) (T : TemplateBodies) (c : Client).
Context (resourceType clusterName : string).

(** One attempt whose fetch finds the view and whose conditions are read
    without a panic: the loop stops on ["True"], and goes on otherwise. *)
Lemma CheckStatus_loop_attempt n w view w1 conds v :
  fetch K resourceType clusterName w = (inl view, w1) ->
  conditions_of view = (conds, true, None) ->
  CheckViewProcessing c conds = Returned v ->
  CheckStatus_loop K T c resourceType clusterName (S n) w =
  if decide (v = "True") then (Returned None, w1)
  else CheckStatus_loop K T c resourceType clusterName n w1.
Proof.
  unfold fetch, conditions_of, view_gvr. intros Hget Hconds Hv.
  cbn [CheckStatus_loop]. unfold ManageObjects, ViewCreateTemplates.
  cbn [ManageObjects_loop ResourceName]. rewrite decide_True by reflexivity.
  rewrite Hget, Hconds. cbn. rewrite Hv. reflexivity.
Qed.

(** One attempt whose fetch fails: the error goes to the caller. *)
Lemma CheckStatus_loop_fetch_error n w e w1 :
  fetch K resourceType clusterName w = (inr e, w1) ->
  CheckStatus_loop K T c resourceType clusterName (S n) w = (Returned (Some e), w1).
Proof.
  unfold fetch, view_gvr. intros Hget.
  cbn [CheckStatus_loop]. unfold ManageObjects, ViewCreateTemplates.
  cbn [ManageObjects_loop ResourceName]. rewrite decide_True by reflexivity.
  rewrite Hget. reflexivity.
Qed.

End PollerFacts.

(** C10. On a list of conditions, each with a status and a message,
    [CheckViewProcessing] returns the status of the last one, and the empty
    string when there is none; so an attempt that reads an empty condition
    list does not converge: the loop goes on with the attempts left. *)
Theorem CheckViewProcessing_last_condition (c : Client) (conds : list value) :
  well_formed conds ->
  CheckViewProcessing c conds = Returned (default EmptyString (last_status conds)) /\
  (conds = [] ->
   CheckViewProcessing c conds = Returned EmptyString /\
   forall (W : Type) (K : Cluster W) T resourceType clusterName n w view w1,
     fetch K resourceType clusterName w = (inl view, w1) ->
     conditions_of view = (conds, true, None) ->
     CheckStatus_loop K T c resourceType clusterName (S n) w =
     CheckStatus_loop K T c resourceType clusterName n w1).
Proof.
  intros Hwf. split; [apply CheckViewProcessing_default, Hwf|].
  intros ->. split; [reflexivity|].
  intros W K T rt cn n w view w1 Hget Hconds.
  rewrite (CheckStatus_loop_attempt K T c rt cn n w view w1 [] EmptyString Hget Hconds)
    by reflexivity.
  rewrite decide_False by discriminate. reflexivity.
Qed.

Lemma CheckViewProcessing_last_condition_witness :
  well_formed [fake.condition "True" "created"; fake.condition "False" "running"] /\
  CheckViewProcessing fake.client
    [fake.condition "True" "created"; fake.condition "False" "running"]
  = Returned "False".
Proof.
  assert (Hwf : well_formed [fake.condition "True" "created";
                             fake.condition "False" "running"]).
  { repeat constructor; vm_compute; eauto. }
  split; [exact Hwf|].
  exact (proj1 (CheckViewProcessing_last_condition fake.client _ Hwf)).
Defined.

(** C6. When an attempt reads a non-empty list of conditions, only the
    status of the last one counts, whatever the statuses before it: on
    ["True"] the poller returns without an error and without a further
    call, on anything else it goes on with the attempts left. *)
Theorem CheckStatus_last_condition_decides {W : Type} (K : Cluster W)
    (T : TemplateBodies) (c : Client) (resourceType clusterName : string)
    (n : nat) (w w1 : W) (view : Unstructured) (conds : list value) (s : string) :
  fetch K resourceType clusterName w = (inl view, w1) ->
  conditions_of view = (conds, true, None) ->
  well_formed conds ->
  last_status conds = Some s ->
  (s = "True" ->
   CheckStatus_loop K T c resourceType clusterName (S n) w = (Returned None, w1)) /\
  (s <> "True" ->
   CheckStatus_loop K T c resourceType clusterName (S n) w =
   CheckStatus_loop K T c resourceType clusterName n w1).
Proof.
  intros Hget Hconds Hwf Hlast.
  pose proof (CheckViewProcessing_default c conds Hwf) as Hv.
  rewrite Hlast in Hv. cbn in Hv.
  rewrite (CheckStatus_loop_attempt K T c _ _ n w view w1 conds s Hget Hconds Hv).
  split; intros Hs.
  - rewrite decide_True by assumption. reflexivity.
  - rewrite decide_False by assumption. reflexivity.
Qed.

Lemma CheckStatus_last_condition_decides_witness :
  let conds := [fake.condition "True" "created"; fake.condition "False" "running"] in
  let w := fake.world_with_view conds in
  last_status conds = Some "False" /\
  CheckStatus_loop fake.cluster fake.bodies fake.client MCV "spoke1" 3 w =
  CheckStatus_loop fake.cluster fake.bodies fake.client MCV "spoke1" 2 w.
Proof.
  cbn zeta. split; [reflexivity|].
  refine (proj2 (CheckStatus_last_condition_decides fake.cluster fake.bodies
                   fake.client MCV "spoke1" 2 _ _
                   (fake.view [fake.condition "True" "created";
                               fake.condition "False" "running"])
                   _ "False" _ _ _ _) _).
  - reflexivity.
  - reflexivity.
  - repeat constructor; vm_compute; eauto.
  - reflexivity.
  - discriminate.
Defined.

(** ** The poller against its log *)

Section PollerLog.
Context {W : Type} (K : Cluster W) (T : TemplateBodies) (c : Client).
Context (resourceType clusterName : string).

Lemma fetch_recording w l :
  fetch (recording K) resourceType clusterName (w, l) =
  let '(r, w1) := fetch K resourceType clusterName w in
  (r, (w1, l ++ fetch_calls resourceType clusterName r)).
Proof.
  unfold fetch, fetch_calls. cbn.
  destruct (Get K _ _ _ _) as [r w1]. rewrite <- app_assoc. reflexivity.
Qed.

(** A view that stays short of ["True"] at every fetch uses up the budget:
    [n] attempts make [n] gets and the loop ends without an error. *)
Lemma CheckStatus_loop_never_true (Inv : W -> Prop) :
  (forall w, Inv w ->
     exists view w1 conds v,
       fetch K resourceType clusterName w = (inl view, w1) /\
       conditions_of view = (conds, true, None) /\
       CheckViewProcessing c conds = Returned v /\ v <> "True" /\ Inv w1) ->
  forall n w l, Inv w ->
    exists w' tr,
      CheckStatus_loop (recording K) T c resourceType clusterName n (w, l)
      = (Returned None, (w', l ++ tr)) /\
      length (get_calls tr) = n /\ Inv w'.
Proof.
  intros Hstep n. induction n as [|n IH]; intros w l Hw.
  - exists w, []. rewrite app_nil_r. auto.
  - destruct (Hstep w Hw) as (view & w1 & conds & v & Hget & Hconds & Hv & Hne & Hw1).
    pose proof (fetch_recording w l) as Hrec. rewrite Hget in Hrec.
    rewrite (CheckStatus_loop_attempt (recording K) T c _ _ n _ _ _ _ _ Hrec Hconds Hv).
    rewrite decide_False by assumption.
    destruct (IH w1 (l ++ fetch_calls resourceType clusterName (inl view)) Hw1) as (w' & tr & Hrun & Hlen & Hw').
    exists w', (fetch_calls resourceType clusterName (inl view) ++ tr). rewrite Hrun, app_assoc.
    split; [reflexivity|]. split; [|assumption].
    unfold get_calls in *. cbn. f_equal. assumption.
Qed.

(** Whatever the cluster does, a get that fails is the last call of the
    poller and its error is the result. *)
Lemma CheckStatus_loop_failed_get_last n :
  forall w l r w' l',
    CheckStatus_loop (recording K) T c resourceType clusterName n (w, l)
    = (r, (w', l')) ->
    exists tr, l' = l ++ tr /\
      forall pre post gvr ns name e,
        tr = pre ++ CallGet gvr ns name (inr e) :: post ->
        post = [] /\ r = Returned (Some e).
Proof.
  induction n as [|n IH]; intros w l r w' l' Hrun.
  - cbn in Hrun. injection Hrun as <- <- <-. exists []. rewrite app_nil_r.
    split; [reflexivity|]. intros [|? ?] ? ? ? ? ?; discriminate.
  - pose proof (fetch_recording w l) as Hrec.
    destruct (fetch K resourceType clusterName w) as [[view|e] w1] eqn:Hget.
    + assert (Hone : forall r0 : outcome (option error),
                exists tr, l ++ fetch_calls resourceType clusterName (inl view) = l ++ tr /\
                  forall pre post gvr ns name e,
                    tr = pre ++ CallGet gvr ns name (inr e) :: post ->
                    post = [] /\ r0 = Returned (Some e)).
      { intros r0. exists (fetch_calls resourceType clusterName (inl view)). split; [reflexivity|].
        intros [|? [|? [|? ?]]] ? ? ? ? ?; discriminate. }
      revert Hrun. cbn [CheckStatus_loop]. unfold ManageObjects, ViewCreateTemplates.
      cbn [ManageObjects_loop ResourceName]. rewrite decide_True by reflexivity.
      unfold fetch, view_gvr in Hrec. rewrite Hrec. cbn [fst snd].
      fold (conditions_of view).
      destruct (conditions_of view) as [[conds found] [err|]].
      * intros [= <- <- <-]. apply Hone.
      * destruct found; cbn [negb].
        -- destruct (CheckViewProcessing c conds) as [v|msg].
           ++ destruct (decide (v = "True")).
              ** intros [= <- <- <-]. apply Hone.
              ** intros Hrun. apply IH in Hrun as (tr & -> & Htr).
                 exists (fetch_calls resourceType clusterName (inl view) ++ tr).
                 rewrite app_assoc. split; [reflexivity|].
                 intros [|x [|y pre]] post gvr ns name e; cbn; intros Heq;
                   try discriminate.
                 injection Heq as _ _ Heq. apply (Htr _ _ _ _ _ _ Heq).
           ++ intros [= <- <- <-]. apply Hone.
        -- intros [= <- <- <-]. apply Hone.
    + rewrite (CheckStatus_loop_fetch_error (recording K) T c _ _ n _ _ _ Hrec) in Hrun.
      injection Hrun as <- <- <-. exists (fetch_calls resourceType clusterName (inr e)).
      split; [reflexivity|].
      intros [|x [|y pre]] post gvr ns name e'; unfold fetch_calls; cbn;
        intros Heq; try discriminate.
      * injection Heq as _ _ _ _ <- <-. auto.
      * destruct pre; discriminate.
Qed.

End PollerLog.

(** C2. A job view whose only condition stays at ["False"]: [CheckStatus]
    makes exactly ten gets, leaves the cluster as it was, and then returns
    no error at all. The loop falls out of its ten rounds into the final
    [return nil]; no timeout error exists in the code. *)
Theorem CheckStatus_exhausted_returns_nil :
  let start := fake.world_with_view [fake.condition "False" "running"] in
  let run := CheckStatus (recording fake.cluster) fake.bodies fake.client MCV
               "spoke1" (start, []) in
  run.1 = Returned None /\
  length (get_calls run.2.2) = 10 /\
  run.2.1 = start.
Proof. vm_compute. repeat split; reflexivity. Qed.

(** C3, as stated, fails: on a cluster without the job view the first get
    answers "not found"; [CheckStatus] hands that very error to the caller
    after this single get, with nine attempts left unused. *)
Lemma CheckStatus_first_fetch_error_surfaces :
  CheckStatus (recording fake.cluster) fake.bodies fake.client MCV "spoke1" (fake.empty, [])
  = (Returned (Some (fake.not_found MCV "backup-create-clusterview")),
     (fake.empty, fetch_calls MCV "spoke1"
           (inr (fake.not_found MCV "backup-create-clusterview")))).
Proof. vm_compute. reflexivity. Qed.

(** C3, amended. Whenever a get of the poller fails, at whatever attempt,
    [CheckStatus] returns the error of that get to the caller at once: the
    failed get is the last call it makes. *)
Theorem CheckStatus_returns_fetch_error {W : Type} (K : Cluster W)
    (T : TemplateBodies) (c : Client) (resourceType clusterName : string)
    (w w' : W) (r : outcome (option error)) (log : list Call) :
  CheckStatus (recording K) T c resourceType clusterName (w, []) = (r, (w', log)) ->
  forall pre post gvr ns name e,
    log = pre ++ CallGet gvr ns name (inr e) :: post ->
    post = [] /\ r = Returned (Some e).
Proof.
  intros Hrun.
  apply CheckStatus_loop_failed_get_last in Hrun as (tr & -> & Htr).
  exact Htr.
Qed.

Lemma CheckStatus_returns_fetch_error_witness :
  let start := fake.world_with_view [fake.condition "True" "done"] in
  let nf := fake.not_found MCV "backup-create-clusterview" in
  let run := CheckStatus (recording fake.cluster) fake.bodies fake.client MCV
               "spoke2" (start, []) in
  run = (Returned (Some nf), (start, fetch_calls MCV "spoke2" (inr nf))) /\
  run.1 = Returned (Some nf).
Proof.
  cbn zeta.
  assert (Hrun :
    CheckStatus (recording fake.cluster) fake.bodies fake.client MCV "spoke2"
      (fake.world_with_view [fake.condition "True" "done"], [])
    = (Returned (Some (fake.not_found MCV "backup-create-clusterview")),
       (fake.world_with_view [fake.condition "True" "done"],
        fetch_calls MCV "spoke2"
          (inr (fake.not_found MCV "backup-create-clusterview"))))).
  { vm_compute. reflexivity. }
  split; [exact Hrun|].
  rewrite Hrun.
  exact (proj2 (CheckStatus_returns_fetch_error fake.cluster fake.bodies fake.client
                  MCV "spoke2" _ _ _ _ Hrun [CallSleep 1] [] _ _ _ _ eq_refl)).
Defined.

(** ** The dispatcher *)

Section DispatcherFacts.
Context {W : Type} (L : Libs) (K : Cluster W) (T : TemplateBodies) (c : Client).
Context (config : Config) (clusterName : string).

Lemma RenderYamlTemplate_error_mentions name body data w e :
  RenderYamlTemplate L T c name body data = (w, Some e) ->
  mentions name (Error e).
Proof.
  unfold RenderYamlTemplate.
  destruct (template_Parse L name _) as [tmpl|perr].
  - destruct (template_Execute L tmpl _) as [w' [xerr|]]; intros [= <- <-].
    apply (mentions_middle "failed to render template ").
  - intros [= <- <-]. apply (mentions_middle "failed to parse template ").
Qed.

(** The loop reads the cluster name and the recovery path of [newdata]
    and nothing else of it. *)
Lemma LaunchKubernetesObjects_loop_newdata nd1 nd2 template w :
  ClusterName nd1 = ClusterName nd2 ->
  RecoveryPath nd1 = RecoveryPath nd2 ->
  LaunchKubernetesObjects_loop L K T c config clusterName nd1 template w =
  LaunchKubernetesObjects_loop L K T c config clusterName nd2 template w.
Proof.
  intros Hc Hr. destruct template as [|item rest]; [reflexivity|].
  cbn [LaunchKubernetesObjects_loop]. rewrite Hc, Hr. reflexivity.
Qed.

(** A render failure of [item] ends its processing with the render error,
    before any call. *)
Lemma LaunchKubernetesObjects_item_render_error nd item w bytes e :
  RenderYamlTemplate L T c (ResourceName item) (Template item) nd = (bytes, Some e) ->
  LaunchKubernetesObjects_item L K T c config clusterName nd item w = (Some e, w).
Proof.
  intros Hr. unfold LaunchKubernetesObjects_item. rewrite Hr.
  rewrite (RenderYamlTemplate_error_plain _ _ _ _ _ _ _ _ Hr). reflexivity.
Qed.

(** The templates after a failing one do not matter. *)
Lemma LaunchKubernetesObjects_loop_abort pre item post :
  forall nd w w1 w2 e,
    ClusterName nd = clusterName ->
    RecoveryPath nd = BackupPath c ->
    LaunchKubernetesObjects_loop L K T c config clusterName nd pre w = (None, w1) ->
    LaunchKubernetesObjects_item L K T c config clusterName
      (data_for c clusterName item) item w1 = (Some e, w2) ->
    LaunchKubernetesObjects_loop L K T c config clusterName nd (pre ++ item :: post) w
    = (Some e, w2).
Proof.
  induction pre as [|p pre IH]; intros nd w w1 w2 e Hc Hp Hpre Hitem.
  - injection Hpre as <-. cbn [app LaunchKubernetesObjects_loop].
    rewrite Hc, Hp. fold (data_for c clusterName item). rewrite Hitem. reflexivity.
  - cbn [app LaunchKubernetesObjects_loop] in *.
    destruct (LaunchKubernetesObjects_item L K T c config clusterName _ p w)
      as [[e'|] w0]; [discriminate|].
    apply (IH _ _ w1); auto.
Qed.

(** An error of the create call, of whatever kind, is the verdict on
    [item]. *)
Lemma LaunchKubernetesObjects_item_create_error nd item w bytes obj gvk dc cat
    res e w1 w2 :
  RenderYamlTemplate L T c (ResourceName item) (Template item) nd = (bytes, None) ->
  yaml_Decode L bytes = inl (obj, gvk) ->
  discovery_NewDiscoveryClientForConfig L config = inl dc ->
  ServerGroupsAndResources K dc w = (inl cat, w1) ->
  restmapper.lookup_mapping cat (GroupKind_of gvk) (gvk_Version gvk) = inl res ->
  Create K {| Group := gvk_Group gvk; Version := gvk_Version gvk; Resource := res |}
    clusterName obj w1 = (Some e, w2) ->
  LaunchKubernetesObjects_item L K T c config clusterName nd item w = (Some e, w2).
Proof.
  intros Hrender Hdecode Hclient Hdiscovery Hmapping Hcreate.
  unfold LaunchKubernetesObjects_item. rewrite Hrender, Hdecode, Hclient.
  unfold restmapper.RESTMapping. cbn. rewrite Hdiscovery, Hmapping.
  unfold CreateKubernetesObjects. rewrite Hcreate. reflexivity.
Qed.

End DispatcherFacts.

Section DispatcherLog.
Context {W : Type} (L : Libs) (K : Cluster W) (T : TemplateBodies) (c : Client).
Context (config : Config) (clusterName : string).

(** What one template leaves in the log. *)
Lemma LaunchKubernetesObjects_item_log item w l r w' l' :
  LaunchKubernetesObjects_item L (recording K) T c config clusterName
    (data_for c clusterName item) item (w, l) = (r, (w', l')) ->
  exists tr, l' = l ++ tr /\ item_trace L T c clusterName item r tr.
Proof.
  unfold LaunchKubernetesObjects_item.
  destruct (RenderYamlTemplate L T c _ _ _) as [bytes [rerr|]] eqn:Hrender.
  { rewrite (RenderYamlTemplate_error_plain _ _ _ _ _ _ _ _ Hrender). cbn.
    intros [= <- <- <-]. exists []. rewrite app_nil_r. split; [reflexivity|constructor]. }
  destruct (yaml_Decode L bytes) as [[obj gvk]|derr] eqn:Hdecode.
  2:{ intros [= <- <- <-]. exists []. rewrite app_nil_r.
      split; [reflexivity|constructor]. }
  destruct (discovery_NewDiscoveryClientForConfig L config) as [dc|cerr].
  2:{ intros [= <- <- <-]. exists []. rewrite app_nil_r.
      split; [reflexivity|constructor]. }
  unfold restmapper.RESTMapping, restmapper.NewDeferredDiscoveryRESTMapper,
    restmapper.NewMemCacheClient. cbn.
  destruct (ServerGroupsAndResources K dc w) as [[cat|serr] w1].
  2:{ intros [= <- <- <-]. eexists. split; [reflexivity|constructor]. }
  destruct (restmapper.lookup_mapping cat _ _) as [res|merr].
  2:{ intros [= <- <- <-]. eexists. split; [reflexivity|constructor]. }
  unfold CreateKubernetesObjects. cbn.
  destruct (Create K _ clusterName obj w1) as [resp w2].
  assert (Hplanned : planned L T c clusterName item = Some (obj, gvk)).
  { unfold planned. fold (data_for c clusterName item).
    rewrite Hrender, Hdecode. reflexivity. }
  intros Hrun.
  assert (r = resp /\ w' = w2 /\
          l' = (l ++ [CallDiscovery dc (inl cat)]) ++
               [CallCreate {| Group := gvk_Group gvk; Version := gvk_Version gvk;
                              Resource := res |} clusterName obj resp])
    as (-> & -> & ->) by (destruct resp; injection Hrun; auto).
  rewrite <- app_assoc. eexists. split; [reflexivity|].
  apply item_create.
  - exists obj, gvk, res, resp. auto.
  - eauto.
Qed.

(** What a run of the loop leaves in the log. *)
Lemma LaunchKubernetesObjects_loop_log template :
  forall nd w l r w' l',
    ClusterName nd = clusterName ->
    RecoveryPath nd = BackupPath c ->
    LaunchKubernetesObjects_loop L (recording K) T c config clusterName nd template
      (w, l) = (r, (w', l')) ->
    exists tr, l' = l ++ tr /\ dispatch_trace L T c clusterName template r tr.
Proof.
  induction template as [|item rest IH]; intros nd w l r w' l' Hc Hp.
  - intros [= <- <- <-]. exists []. rewrite app_nil_r. split; [reflexivity|constructor].
  - cbn [LaunchKubernetesObjects_loop]. rewrite Hc, Hp.
    fold (data_for c clusterName item).
    destruct (LaunchKubernetesObjects_item L (recording K) T c config clusterName
                (data_for c clusterName item) item (w, l))
      as [r0 [w0 l0]] eqn:Hitem.
    apply LaunchKubernetesObjects_item_log in Hitem as (tr & -> & Htr).
    destruct r0 as [e|].
    + intros [= <- <- <-]. exists tr. split; [reflexivity|]. constructor. exact Htr.
    + intros Hrest. apply IH in Hrest as (tr' & -> & Htr'); [|reflexivity..].
      exists (tr ++ tr'). rewrite app_assoc. split; [reflexivity|].
      apply dispatch_next; assumption.
Qed.

End DispatcherLog.

(** ** Reading a dispatch trace *)

Section TraceFacts.
Context (L : Libs) (T : TemplateBodies) (c : Client) (clusterName : string).

Lemma item_trace_creates item r tr :
  item_trace L T c clusterName item r tr ->
  (create_calls tr = [] /\ r <> None) \/
  (exists call, create_calls tr = [call] /\ creates_item L T c clusterName call item).
Proof.
  intros [e|dc e|dc cat e|dc cat call resp Hcall (gvr & ns & obj & ->)].
  - left. split; [reflexivity|discriminate].
  - left. split; [reflexivity|discriminate].
  - left. split; [reflexivity|discriminate].
  - right. eexists. split; [reflexivity|exact Hcall].
Qed.

Lemma item_trace_discovery item r tr :
  item_trace L T c clusterName item r tr ->
  length (discovery_calls tr) <= 1 /\
  (r = None -> length (discovery_calls tr) = 1).
Proof.
  intros [e|dc e|dc cat e|dc cat call resp Hcall (gvr & ns & obj & ->)]; cbn;
    split; try discriminate; auto.
Qed.

Lemma item_trace_deletes item r tr :
  item_trace L T c clusterName item r tr -> delete_calls tr = [].
Proof.
  intros [e|dc e|dc cat e|dc cat call resp Hcall (gvr & ns & obj & ->)]; reflexivity.
Qed.

(** The creates of a dispatch are those of a prefix of the templates, one
    for one and in the order of the list; of all of them on success. *)
Lemma dispatch_trace_creates template r tr :
  dispatch_trace L T c clusterName template r tr ->
  exists k,
    k <= length template /\
    Forall2 (creates_item L T c clusterName) (create_calls tr) (take k template) /\
    (r = None -> k = length template).
Proof.
  induction 1 as [|item rest e tr Hitem|item rest tr r tr' Hitem Hrest IH].
  - exists 0. cbn. repeat split; auto.
  - destruct (item_trace_creates _ _ _ Hitem) as [[-> _]|(call & -> & Hcall)].
    + exists 0. cbn. repeat split; [lia|constructor|discriminate].
    + exists 1. cbn. repeat split; [lia| |discriminate].
      rewrite take_0. repeat constructor. exact Hcall.
  - destruct IH as (k & Hk & Hall & Hdone).
    destruct (item_trace_creates _ _ _ Hitem) as [[_ Hne]|(call & Hcalls & Hcall)];
      [congruence|].
    exists (S k). unfold create_calls in *. rewrite List.filter_app, Hcalls. cbn.
    repeat split; [lia| |auto].
    constructor; assumption.
Qed.

(** One discovery call at most for each template, exactly one for each on
    success. *)
Lemma dispatch_trace_discovery template r tr :
  dispatch_trace L T c clusterName template r tr ->
  length (discovery_calls tr) <= length template /\
  (r = None -> length (discovery_calls tr) = length template).
Proof.
  induction 1 as [|item rest e tr Hitem|item rest tr r tr' Hitem Hrest IH].
  - cbn. auto.
  - destruct (item_trace_discovery _ _ _ Hitem) as [Hle _]. cbn.
    split; [lia|discriminate].
  - destruct (item_trace_discovery _ _ _ Hitem) as [_ Hone].
    destruct IH as [Hle Hdone]. unfold discovery_calls in *.
    rewrite List.filter_app, length_app, Hone by reflexivity. cbn.
    split; [lia|]. intros Hr. rewrite Hdone by assumption. reflexivity.
Qed.

(** A dispatch deletes nothing. *)
Lemma dispatch_trace_deletes template r tr :
  dispatch_trace L T c clusterName template r tr -> delete_calls tr = [].
Proof.
  induction 1 as [|item rest e tr Hitem|item rest tr r tr' Hitem Hrest IH].
  - reflexivity.
  - exact (item_trace_deletes _ _ _ Hitem).
  - unfold delete_calls in *. rewrite List.filter_app, IH.
    fold (delete_calls tr). rewrite (item_trace_deletes _ _ _ Hitem). reflexivity.
Qed.

End TraceFacts.

(** The log of a whole dispatch that starts with an empty log: nothing
    when the configuration cannot be read, a dispatch trace otherwise. *)
Lemma LaunchKubernetesObjects_log {W : Type} (L : Libs) (K : Cluster W)
    (T : TemplateBodies) (c : Client) (clusterName : string)
    (template : list ResourceTemplate) (w w' : W) (r : option error)
    (log : list Call) :
  LaunchKubernetesObjects L (recording K) T c clusterName template (w, [])
  = (r, (w', log)) ->
  (r <> None /\ log = []) \/ dispatch_trace L T c clusterName template r log.
Proof.
  unfold LaunchKubernetesObjects. destruct (GetConfig L c) as [config|e].
  - intros Hrun. right.
    apply LaunchKubernetesObjects_loop_log in Hrun as (tr & -> & Htr);
      [exact Htr|reflexivity..].
  - intros [= <- <- <-]. left. split; [discriminate|reflexivity].
Qed.

(** C5. The creates that a dispatch issues on the remote API are, one for
    one and in the order of the list, the creates of the documents planned
    for its first [k] templates, each in the namespace of the cluster; on
    a run without error [k] is the length of the list. *)
Theorem LaunchKubernetesObjects_creates_in_order {W : Type} (L : Libs)
    (K : Cluster W) (T : TemplateBodies) (c : Client) (clusterName : string)
    (template : list ResourceTemplate) (w w' : W) (r : option error)
    (log : list Call) :
  LaunchKubernetesObjects L (recording K) T c clusterName template (w, [])
  = (r, (w', log)) ->
  exists k,
    k <= length template /\
    Forall2 (creates_item L T c clusterName) (create_calls log) (take k template) /\
    (r = None -> k = length template).
Proof.
  intros Hrun. apply LaunchKubernetesObjects_log in Hrun as [[Hr ->]|Htrace].
  - exists 0. cbn. repeat split; [lia|rewrite take_0; constructor|congruence].
  - exact (dispatch_trace_creates _ _ _ _ _ _ _ Htrace).
Qed.

(** C8, amended. The dispatcher builds a discovery client and a mapper
    with an empty cache for every template, so it makes one discovery call
    for each template it resolves, also when kinds repeat: never more
    calls than templates, and exactly as many on a run without error. *)
Theorem LaunchKubernetesObjects_discovery_per_template {W : Type} (L : Libs)
    (K : Cluster W) (T : TemplateBodies) (c : Client) (clusterName : string)
    (template : list ResourceTemplate) (w w' : W) (r : option error)
    (log : list Call) :
  LaunchKubernetesObjects L (recording K) T c clusterName template (w, [])
  = (r, (w', log)) ->
  length (discovery_calls log) <= length template /\
  (r = None -> length (discovery_calls log) = length template).
Proof.
  intros Hrun. apply LaunchKubernetesObjects_log in Hrun as [[Hr ->]|Htrace].
  - cbn. split; [lia|congruence].
  - exact (dispatch_trace_discovery _ _ _ _ _ _ _ Htrace).
Qed.

(** The run used as an example below: the create sequence dispatched to
    the empty in-memory cluster. *)
Lemma fake_create_sequence :
  LaunchKubernetesObjects fake.libs (recording fake.cluster) fake.bodies fake.client
    "spoke1" (ActionCreateTemplates fake.bodies) (fake.empty, [])
  = let run := LaunchKubernetesObjects fake.libs (recording fake.cluster) fake.bodies
                 fake.client "spoke1" (ActionCreateTemplates fake.bodies) (fake.empty, []) in
    (None, (run.2.1, run.2.2)).
Proof. vm_compute. reflexivity. Qed.

Lemma LaunchKubernetesObjects_creates_in_order_witness :
  let run := LaunchKubernetesObjects fake.libs (recording fake.cluster) fake.bodies
               fake.client "spoke1" (ActionCreateTemplates fake.bodies) (fake.empty, []) in
  run.1 = None /\
  exists k,
    k <= length (ActionCreateTemplates fake.bodies) /\
    Forall2 (creates_item fake.libs fake.bodies fake.client "spoke1")
      (create_calls run.2.2) (take k (ActionCreateTemplates fake.bodies)) /\
    ((None : option error) = None -> k = length (ActionCreateTemplates fake.bodies)).
Proof.
  cbn zeta. split; [vm_compute; reflexivity|].
  exact (LaunchKubernetesObjects_creates_in_order fake.libs fake.cluster fake.bodies
           fake.client "spoke1" (ActionCreateTemplates fake.bodies) fake.empty _ None _
           fake_create_sequence).
Defined.

(** A mapper that holds the catalogue answers without a call. *)
Lemma RESTMapping_cache_hit {W : Type} (K : Cluster W)
    (m : restmapper.DeferredDiscoveryRESTMapper) (cat : Catalogue)
    (gk : GroupKind) (version : string) (w : W) :
  restmapper.cached (restmapper.cl m) = Some cat ->
  restmapper.RESTMapping K m gk version w
  = (restmapper.lookup_mapping cat gk version, m, w).
Proof. intros Hc. unfold restmapper.RESTMapping. rewrite Hc. reflexivity. Qed.

(** C8, as stated, fails: the four templates of the create sequence all
    have the kind ManagedClusterAction, and their dispatch makes four
    discovery calls, not one. *)
Lemma LaunchKubernetesObjects_rediscovers_same_kind :
  let run := LaunchKubernetesObjects fake.libs (recording fake.cluster) fake.bodies
               fake.client "spoke1" (ActionCreateTemplates fake.bodies) (fake.empty, []) in
  run.1 = None /\
  Forall (fun item =>
            snd <$> planned fake.libs fake.bodies fake.client "spoke1" item
            = Some fake.action_kind)
         (ActionCreateTemplates fake.bodies) /\
  length (discovery_calls run.2.2) = 4.
Proof.
  cbn zeta. split; [vm_compute; reflexivity|]. split.
  - repeat constructor.
  - vm_compute. reflexivity.
Qed.

Lemma LaunchKubernetesObjects_discovery_per_template_witness :
  let run := LaunchKubernetesObjects fake.libs (recording fake.cluster) fake.bodies
               fake.client "spoke1" (ActionCreateTemplates fake.bodies) (fake.empty, []) in
  run.1 = None /\
  length (discovery_calls run.2.2) = length (ActionCreateTemplates fake.bodies).
Proof.
  cbn zeta. split; [vm_compute; reflexivity|].
  exact (proj2 (LaunchKubernetesObjects_discovery_per_template fake.libs fake.cluster
                  fake.bodies fake.client "spoke1" (ActionCreateTemplates fake.bodies)
                  fake.empty _ None _ fake_create_sequence) eq_refl).
Defined.

Lemma length_append (s1 s2 : string) :
  String.length (s1 +:+ s2) = String.length s1 + String.length s2.
Proof.
  induction s1 as [|a s1 IH]; [reflexivity|].
  change (S (String.length (s1 +:+ s2)) = S (String.length s1 + String.length s2)).
  f_equal. exact IH.
Qed.

Lemma mentions_length needle hay :
  mentions needle hay -> String.length needle <= String.length hay.
Proof. intros (pre & post & ->). rewrite !length_append. lia. Qed.

(** Where the error of a failing template comes from. *)
Lemma LaunchKubernetesObjects_item_failure {W : Type} (L : Libs) (K : Cluster W)
    (T : TemplateBodies) (c : Client) (config : Config) (clusterName : string)
    (item : ResourceTemplate) (w w' : W) (l l' : list Call) (e : error) :
  LaunchKubernetesObjects_item L (recording K) T c config clusterName
    (data_for c clusterName item) item (w, l) = (Some e, (w', l')) ->
  exists tr, l' = l ++ tr /\ item_failure L T c config clusterName item e tr.
Proof.
  unfold LaunchKubernetesObjects_item.
  destruct (RenderYamlTemplate L T c _ _ _) as [bytes [rerr|]] eqn:Hrender.
  { rewrite (RenderYamlTemplate_error_plain _ _ _ _ _ _ _ _ Hrender). cbn.
    intros [= <- <- <-]. exists []. rewrite app_nil_r. split; [reflexivity|].
    apply (failure_render _ _ _ _ _ _ bytes); [exact Hrender|].
    exact (RenderYamlTemplate_error_mentions L T c _ _ _ _ _ Hrender). }
  destruct (yaml_Decode L bytes) as [[obj gvk]|derr] eqn:Hdecode.
  2:{ intros [= <- <- <-]. exists []. rewrite app_nil_r. split; [reflexivity|].
      exact (failure_decode _ _ _ _ _ _ bytes _ Hrender Hdecode). }
  assert (Hplanned : planned L T c clusterName item = Some (obj, gvk)).
  { unfold planned. fold (data_for c clusterName item).
    rewrite Hrender, Hdecode. reflexivity. }
  destruct (discovery_NewDiscoveryClientForConfig L config) as [dc|cerr] eqn:Hclient.
  2:{ intros [= <- <- <-]. exists []. rewrite app_nil_r. split; [reflexivity|].
      exact (failure_client _ _ _ _ _ _ _ _ _ Hplanned Hclient). }
  unfold restmapper.RESTMapping, restmapper.NewDeferredDiscoveryRESTMapper,
    restmapper.NewMemCacheClient. cbn.
  destruct (ServerGroupsAndResources K dc w) as [[cat|serr] w1].
  2:{ intros [= <- <- <-]. eexists. split; [reflexivity|].
      exact (failure_discovery _ _ _ _ _ _ _ _ _ _ Hplanned Hclient). }
  destruct (restmapper.lookup_mapping cat _ _) as [res|merr] eqn:Hmapping.
  2:{ intros [= <- <- <-]. eexists. split; [reflexivity|].
      exact (failure_mapping _ _ _ _ _ _ _ _ _ _ _ Hplanned Hclient Hmapping). }
  unfold CreateKubernetesObjects. cbn.
  destruct (Create K _ clusterName obj w1) as [[cerr|] w2]; intros [= <- <- <-].
  rewrite <- app_assoc. eexists. split; [reflexivity|].
  exact (failure_create _ _ _ _ _ _ _ _ _ _ _ _ Hplanned Hclient Hmapping).
Qed.

(** C4, as stated, fails in its last part: when the decoder refuses the
    second template of the create sequence, the dispatch returns the very
    error of the decoder, which names neither the step nor its template;
    the first template has been created and nothing after the second is
    touched. *)
Lemma LaunchKubernetesObjects_decode_error_unnamed :
  let run := LaunchKubernetesObjects fake.libs_bad_document (recording fake.cluster)
               fake.bodies fake.client "spoke1" (ActionCreateTemplates fake.bodies)
               (fake.empty, []) in
  run.1 = Some (ErrorString "yaml: unexpected end") /\
  length (create_calls run.2.2) = 1 /\
  ~ mentions "backup-create-serviceaccount" (Error (ErrorString "yaml: unexpected end")).
Proof.
  cbn zeta. split; [vm_compute; reflexivity|]. split; [vm_compute; reflexivity|].
  intros Hm. apply mentions_length in Hm. cbn in Hm. lia.
Qed.

(** C4, amended. When the templates before [item] have been processed
    without error and the processing of [item] fails with [e], the
    dispatch of the whole list returns [e] and ends in the very state, log
    included, in which [item] failed, whatever comes after [item]. The log
    then holds one create for each template before [item], all accepted,
    and no delete. The error [e] is the error of the operation that
    failed: wrapped with the name of [item] when it was its rendering, and
    otherwise the error of the decoder, of the discovery client, of the
    mapping or of the create call, returned as it was. *)
Theorem LaunchKubernetesObjects_aborts_on_failure {W : Type} (L : Libs)
    (K : Cluster W) (T : TemplateBodies) (c : Client) (clusterName : string)
    (config : Config) (pre post : list ResourceTemplate) (item : ResourceTemplate)
    (w w1 w2 : W) (log1 log2 : list Call) (e : error) :
  GetConfig L c = inl config ->
  LaunchKubernetesObjects L (recording K) T c clusterName pre (w, [])
  = (None, (w1, log1)) ->
  LaunchKubernetesObjects_item L (recording K) T c config clusterName
    (data_for c clusterName item) item (w1, log1) = (Some e, (w2, log2)) ->
  LaunchKubernetesObjects L (recording K) T c clusterName (pre ++ item :: post) (w, [])
  = (Some e, (w2, log2)) /\
  (exists tr, log2 = log1 ++ tr /\
              item_failure L T c config clusterName item e tr) /\
  Forall2 (creates_item L T c clusterName) (create_calls log1) pre /\
  Forall (fun call => exists gvr ns obj, call = CallCreate gvr ns obj None)
         (create_calls log1) /\
  delete_calls log2 = [] /\
  ((RenderYamlTemplate L T c (ResourceName item) (Template item)
      (data_for c clusterName item)).2 <> None ->
   log2 = log1 /\ mentions (ResourceName item) (Error e)).
Proof.
  intros Hconfig Hpre Hitem.
  assert (Hall :
    LaunchKubernetesObjects L (recording K) T c clusterName (pre ++ item :: post) (w, [])
    = (Some e, (w2, log2))).
  { unfold LaunchKubernetesObjects in *. rewrite Hconfig in *.
    apply (LaunchKubernetesObjects_loop_abort L (recording K) T c config clusterName
             pre item post _ _ (w1, log1)); auto. }
  split; [exact Hall|].
  split; [exact (LaunchKubernetesObjects_item_failure L K T c config clusterName
                   item w1 w2 log1 log2 e Hitem)|].
  split; [|split; [|split]].
  - destruct (LaunchKubernetesObjects_log _ _ _ _ _ _ _ _ _ _ Hpre) as [[Hne _]|Htr];
      [congruence|].
    destruct (dispatch_trace_creates _ _ _ _ _ _ _ Htr) as (k & _ & Hcreates & Hk).
    rewrite (Hk eq_refl), firstn_all in Hcreates. exact Hcreates.
  - destruct (LaunchKubernetesObjects_log _ _ _ _ _ _ _ _ _ _ Hpre) as [[Hne _]|Htr];
      [congruence|].
    clear - Htr. remember None as r eqn:Hr.
    induction Htr as [|it rest e tr Hit|it rest tr r tr' Hit Hrest IH].
    + constructor.
    + discriminate.
    + subst r. unfold create_calls in *. rewrite List.filter_app.
      apply Forall_app. split; [|auto].
      inversion Hit as [| | |dc cat call resp Hcall (gvr & ns & obj & ->) Hresp Htr'].
      repeat constructor. eauto.
  - destruct (LaunchKubernetesObjects_log _ _ _ _ _ _ _ _ _ _ Hall) as [[_ ->]|Htr];
      [reflexivity|].
    exact (dispatch_trace_deletes _ _ _ _ _ _ _ Htr).
  - destruct (RenderYamlTemplate L T c _ _ _) as [bytes [rerr|]] eqn:Hrender;
      [intros _|intros Hne; cbn in Hne; congruence].
    rewrite (LaunchKubernetesObjects_item_render_error L (recording K) T c config
               clusterName _ item (w1, log1) bytes rerr Hrender) in Hitem.
    injection Hitem as <- <- <-. split; [reflexivity|].
    exact (RenderYamlTemplate_error_mentions L T c _ _ _ _ _ Hrender).
Qed.

Lemma LaunchKubernetesObjects_aborts_on_failure_witness :
  let start := fake.world_with_action "backup-create-serviceaccount" in
  let pre := take 1 (ActionCreateTemplates fake.bodies) in
  let item := {| ResourceName := "backup-create-serviceaccount";
                 Template := mngClusterActCreateSA fake.bodies |} in
  let post := drop 2 (ActionCreateTemplates fake.bodies) in
  let run := LaunchKubernetesObjects fake.libs (recording fake.cluster) fake.bodies
               fake.client "spoke1" (pre ++ item :: post) (start, []) in
  GetConfig fake.libs fake.client = inl {| Host := "/etc/kubeconfig" |} /\
  run.1 = Some (fake.already_exists MCA "backup-create-serviceaccount") /\
  length (create_calls run.2.2) = 2 /\
  delete_calls run.2.2 = [].
Proof.
  cbn zeta.
  pose (before := LaunchKubernetesObjects fake.libs (recording fake.cluster) fake.bodies
                    fake.client "spoke1" (take 1 (ActionCreateTemplates fake.bodies))
                    (fake.world_with_action "backup-create-serviceaccount", [])).
  pose (item := {| ResourceName := "backup-create-serviceaccount";
                   Template := mngClusterActCreateSA fake.bodies |}).
  pose (failing := LaunchKubernetesObjects_item fake.libs (recording fake.cluster)
                     fake.bodies fake.client {| Host := "/etc/kubeconfig" |} "spoke1"
                     (data_for fake.client "spoke1" item) item before.2).
  assert (Hpre : before = (None, (before.2.1, before.2.2))) by (vm_compute; reflexivity).
  assert (Hitem :
    LaunchKubernetesObjects_item fake.libs (recording fake.cluster)
      fake.bodies fake.client {| Host := "/etc/kubeconfig" |} "spoke1"
      (data_for fake.client "spoke1" item) item (before.2.1, before.2.2)
    = (Some (fake.already_exists MCA "backup-create-serviceaccount"),
       (failing.2.1, failing.2.2))) by (vm_compute; reflexivity).
  destruct (LaunchKubernetesObjects_aborts_on_failure fake.libs fake.cluster
              fake.bodies fake.client "spoke1" {| Host := "/etc/kubeconfig" |}
              (take 1 (ActionCreateTemplates fake.bodies))
              (drop 2 (ActionCreateTemplates fake.bodies)) item
              _ _ _ _ _ _ eq_refl Hpre Hitem)
    as (Hrun & _ & _ & _ & Hdel & _).
  split; [reflexivity|]. fold item. rewrite Hrun. cbn [fst snd].
  split; [reflexivity|]. split; [vm_compute; reflexivity|exact Hdel].
Defined.

(** C1. The create sequence dispatched twice to the in-memory cluster: the
    first dispatch returns no error; the second one stops at its first
    template with the "already exists" error of the create call and
    changes nothing. [LaunchKubernetesObjects] tests [IsAlreadyExists] on
    the error of the rendering, where it never holds, and returns every
    error of [CreateKubernetesObjects]. *)
Theorem LaunchKubernetesObjects_second_dispatch_fails :
  let dispatch := LaunchKubernetesObjects fake.libs (recording fake.cluster)
                    fake.bodies fake.client "spoke1"
                    (ActionCreateTemplates fake.bodies) in
  let first := dispatch (fake.empty, []) in
  let second := dispatch (first.2.1, []) in
  first.1 = None /\
  length (create_calls first.2.2) = 4 /\
  second.1 = Some (fake.already_exists MCA "backup-create-namespace") /\
  length (create_calls second.2.2) = 1 /\
  second.2.1 = first.2.1.
Proof. vm_compute. repeat split; reflexivity. Qed.

(** ** Teardown *)

(** C7, as stated, fails: deleting the one target of the delete sequence
    on a cluster that does not hold it returns the "not found" error of
    the delete call. *)
Lemma ManageObjects_delete_absent_fails :
  ManageObjects (recording fake.cluster) fake.client "spoke1"
    (JobDeleteTemplates fake.bodies) MCA "delete" (fake.empty, [])
  = ((None, Some (fake.not_found MCA "backup-delete-ns")),
     (fake.empty, [CallDelete (view_gvr MCA) "spoke1" "backup-delete-ns"
            (Some (fake.not_found MCA "backup-delete-ns"))])).
Proof. vm_compute. reflexivity. Qed.

(** C7, amended. In delete mode the first delete call that fails, be it
    with "not found" or with any other error, ends the sequence: its error
    is returned and the templates after it are left alone. The sequence
    ends without error only when every delete call succeeds. *)
Theorem ManageObjects_delete_returns_error {W : Type} (K : Cluster W) (c : Client)
    (clusterName resourceType : string) (pre post : list ResourceTemplate)
    (item : ResourceTemplate) (w w1 w2 : W) (e : error) :
  ManageObjects K c clusterName pre resourceType "delete" w = ((None, None), w1) ->
  Delete K (view_gvr resourceType) clusterName (ResourceName item) w1 = (Some e, w2) ->
  ManageObjects K c clusterName (pre ++ item :: post) resourceType "delete" w
  = ((None, Some e), w2).
Proof.
  unfold ManageObjects. fold (view_gvr resourceType).
  revert w. induction pre as [|p pre IH]; intros w Hpre Hdel.
  - injection Hpre as <-. cbn. rewrite Hdel. reflexivity.
  - cbn in *. destruct (Delete K _ clusterName (ResourceName p) w) as [[e'|] w0].
    + discriminate.
    + apply IH; assumption.
Qed.

Lemma ManageObjects_delete_returns_error_witness :
  let target := {| ResourceName := "backup-delete-ns";
                   Template := mngClusterActDeleteNS fake.bodies |} in
  Delete fake.cluster (view_gvr MCA) "spoke1" (ResourceName target) fake.empty
  = (Some (fake.not_found MCA "backup-delete-ns"), fake.empty) /\
  ManageObjects fake.cluster fake.client "spoke1" ([] ++ target :: []) MCA "delete" fake.empty
  = ((None, Some (fake.not_found MCA "backup-delete-ns")), fake.empty).
Proof.
  cbn zeta.
  assert (Hdel :
    Delete fake.cluster (view_gvr MCA) "spoke1" "backup-delete-ns" fake.empty
    = (Some (fake.not_found MCA "backup-delete-ns"), fake.empty))
    by (vm_compute; reflexivity).
  split; [exact Hdel|].
  exact (ManageObjects_delete_returns_error fake.cluster fake.client "spoke1" MCA
           [] [] {| ResourceName := "backup-delete-ns";
                    Template := mngClusterActDeleteNS fake.bodies |}
           fake.empty fake.empty fake.empty _ eq_refl Hdel).
Defined.

(** * Further properties *)

(** ** The poller, attempt by attempt *)

Lemma CheckViewProcessing_loop_returned conds :
  forall status message s,
    CheckViewProcessing_loop status message conds = Returned s ->
    well_formed conds.
Proof.
  induction conds as [|v conds IH]; intros status message s Hrun.
  - constructor.
  - cbn in Hrun. destruct v as [| | | | |m]; try discriminate.
    destruct (m !! "status") as [[| | |st| |]|] eqn:Hst; try discriminate.
    destruct (m !! "message") as [[| | |msg| |]|] eqn:Hmsg; try discriminate.
    constructor; [|eapply IH; exact Hrun]. exists st. cbn. rewrite Hst, Hmsg.
    reflexivity.
Qed.

(** X1. [CheckViewProcessing] returns, rather than panics, exactly on the
    lists in which every condition is a map with a string status and a
    string message: one condition of another shape anywhere in the list,
    also before a good last one, makes it panic. *)
Theorem CheckViewProcessing_returns_iff (c : Client) (conds : list value) :
  (exists s, CheckViewProcessing c conds = Returned s) <-> well_formed conds.
Proof.
  split.
  - intros [s Hs]. exact (CheckViewProcessing_loop_returned _ _ _ _ Hs).
  - intros Hwf. eexists. apply CheckViewProcessing_default, Hwf.
Qed.

Lemma reading_Some c view s :
  reading c view = Some s ->
  exists conds,
    conditions_of view = (conds, true, None) /\
    CheckViewProcessing c conds = Returned s.
Proof.
  unfold reading. destruct (conditions_of view) as [[conds [|]] [err|]];
    try discriminate.
  destruct (CheckViewProcessing c conds) as [v|msg] eqn:Hv; intros [= <-]. eauto.
Qed.

Section PollerShape.
Context {W : Type} (K : Cluster W) (T : TemplateBodies) (c : Client).
Context (resourceType clusterName : string).

Lemma poll_calls_cons r rs :
  poll_calls resourceType clusterName (r :: rs)
  = fetch_calls resourceType clusterName r ++ poll_calls resourceType clusterName rs.
Proof. reflexivity. Qed.

(** The whole story of a run of the loop, read from its log. *)
Lemma CheckStatus_loop_polls n :
  forall w l r w' l',
    CheckStatus_loop (recording K) T c resourceType clusterName n (w, l)
    = (r, (w', l')) ->
    exists rs,
      l' = l ++ poll_calls resourceType clusterName rs /\
      length rs <= n /\
      (0 < n -> 0 < length rs) /\
      (forall i x, rs !! i = Some x -> S i < length rs -> reads_on c x) /\
      (r = Returned None ->
       length rs = n \/
       exists view, last rs = Some (inl view) /\ reading c view = Some "True").
Proof.
  induction n as [|n IH]; intros w l r w' l' Hrun.
  - cbn in Hrun. injection Hrun as <- <- <-. exists []. cbn. rewrite app_nil_r.
    split_and!; auto; try lia; try (intros i x Hx; discriminate).
  - pose proof (fetch_recording K resourceType clusterName w l) as Hrec.
    destruct (fetch K resourceType clusterName w) as [[view|e] w1] eqn:Hget.
    + assert (Hone : forall r0 : outcome (option error),
                (r0 = Returned None -> reading c view = Some "True") ->
                exists rs,
                  l ++ fetch_calls resourceType clusterName (inl view)
                  = l ++ poll_calls resourceType clusterName rs /\
                  length rs <= S n /\
                  (0 < S n -> 0 < length rs) /\
                  (forall i x, rs !! i = Some x -> S i < length rs -> reads_on c x) /\
                  (r0 = Returned None ->
                   length rs = S n \/
                   exists view, last rs = Some (inl view) /\
                                reading c view = Some "True")).
      { intros r0 Hr0. exists [inl view].
        split; [unfold poll_calls; cbn [map concat]; rewrite app_nil_r; reflexivity|].
        cbn. split_and!; auto; try lia.
        intros Hnil. right. eauto. }
      revert Hrun. cbn [CheckStatus_loop]. unfold ManageObjects, ViewCreateTemplates.
      cbn [ManageObjects_loop ResourceName]. rewrite decide_True by reflexivity.
      unfold fetch, view_gvr in Hrec. rewrite Hrec. cbn [fst snd].
      fold (conditions_of view).
      destruct (conditions_of view) as [[conds found] [err|]] eqn:Hconds.
      * intros [= <- <- <-]. apply Hone. discriminate.
      * destruct found; cbn [negb].
        -- destruct (CheckViewProcessing c conds) as [v|msg] eqn:Hv.
           ++ destruct (decide (v = "True")) as [->|Hne].
              ** intros [= <- <- <-]. apply Hone. intros _.
                 unfold reading. rewrite Hconds, Hv. reflexivity.
              ** intros Hrun.
                 apply IH in Hrun as (rs & -> & Hlen & Hpos & Hbefore & Hnil).
                 exists (inl view :: rs). rewrite poll_calls_cons, app_assoc.
                 cbn [length]. split_and!; auto; try lia.
                 --- intros [|i] x Hx Hi; cbn in Hx, Hi.
                     +++ injection Hx as <-. exists view, v.
                         unfold reading. rewrite Hconds, Hv. auto.
                     +++ apply (Hbefore i); [assumption|lia].
                 --- intros Hr. destruct (Hnil Hr) as [Hfull|(view' & Hlast & Hread)].
                     +++ left. lia.
                     +++ right. exists view'. rewrite last_cons, Hlast. auto.
           ++ intros [= <- <- <-]. apply Hone. discriminate.
        -- intros [= <- <- <-]. apply Hone. discriminate.
    + rewrite (CheckStatus_loop_fetch_error (recording K) T c _ _ n _ _ _ Hrec) in Hrun.
      injection Hrun as <- <- <-. exists [inr e].
      split; [unfold poll_calls; cbn [map concat]; rewrite app_nil_r; reflexivity|].
      cbn. split_and!; auto; try lia; discriminate.
Qed.

End PollerShape.

(** X2. Whatever the cluster does, [CheckStatus] pauses one second and
    gets the job view at least once and at most ten times, and calls
    nothing else; every attempt before its last one found a view that read
    a status other than ["True"]. *)
Theorem CheckStatus_log_shape {W : Type} (K : Cluster W) (T : TemplateBodies)
    (c : Client) (resourceType clusterName : string) (w w' : W)
    (r : outcome (option error)) (log : list Call) :
  CheckStatus (recording K) T c resourceType clusterName (w, []) = (r, (w', log)) ->
  exists rs,
    log = poll_calls resourceType clusterName rs /\
    1 <= length rs <= 10 /\
    (forall i x, rs !! i = Some x -> S i < length rs -> reads_on c x).
Proof.
  intros Hrun.
  apply CheckStatus_loop_polls in Hrun as (rs & -> & Hle & Hpos & Hbefore & _).
  exists rs. split_and!; auto; lia.
Qed.

Lemma CheckStatus_log_shape_witness :
  let start := fake.world_with_view [fake.condition "True" "done"] in
  let run := CheckStatus (recording fake.cluster) fake.bodies fake.client MCV
               "spoke1" (start, []) in
  run = (Returned None, (start, poll_calls MCV "spoke1"
                                  [inl (fake.view [fake.condition "True" "done"])])) /\
  exists rs,
    run.2.2 = poll_calls MCV "spoke1" rs /\
    1 <= length rs <= 10 /\
    (forall i x, rs !! i = Some x -> S i < length rs -> reads_on fake.client x).
Proof.
  cbn zeta.
  assert (Hrun :
    CheckStatus (recording fake.cluster) fake.bodies fake.client MCV "spoke1"
      (fake.world_with_view [fake.condition "True" "done"], [])
    = (Returned None,
       (fake.world_with_view [fake.condition "True" "done"],
        poll_calls MCV "spoke1" [inl (fake.view [fake.condition "True" "done"])])))
    by (vm_compute; reflexivity).
  split; [exact Hrun|]. rewrite Hrun.
  exact (CheckStatus_log_shape fake.cluster fake.bodies fake.client MCV "spoke1"
           _ _ _ _ Hrun).
Defined.

(** X3. A nil result of [CheckStatus] does not say that the job is done:
    it comes either from a last view that read ["True"] or from ten
    attempts used up. *)
Theorem CheckStatus_nil_verdict {W : Type} (K : Cluster W) (T : TemplateBodies)
    (c : Client) (resourceType clusterName : string) (w w' : W)
    (log : list Call) :
  CheckStatus (recording K) T c resourceType clusterName (w, [])
  = (Returned None, (w', log)) ->
  exists rs,
    log = poll_calls resourceType clusterName rs /\
    (length rs = 10 \/
     exists view, last rs = Some (inl view) /\ reading c view = Some "True").
Proof.
  intros Hrun.
  apply CheckStatus_loop_polls in Hrun as (rs & -> & _ & _ & _ & Hnil).
  exists rs. split; [reflexivity|]. apply Hnil. reflexivity.
Qed.

Lemma CheckStatus_nil_verdict_witness :
  let start := fake.world_with_view [fake.condition "True" "done"] in
  let run := CheckStatus (recording fake.cluster) fake.bodies fake.client MCV
               "spoke1" (start, []) in
  run.1 = Returned None /\
  exists rs,
    run.2.2 = poll_calls MCV "spoke1" rs /\
    (length rs = 10 \/
     exists view, last rs = Some (inl view) /\
                  reading fake.client view = Some "True").
Proof.
  cbn zeta.
  assert (Hrun :
    CheckStatus (recording fake.cluster) fake.bodies fake.client MCV "spoke1"
      (fake.world_with_view [fake.condition "True" "done"], [])
    = (Returned None,
       (fake.world_with_view [fake.condition "True" "done"],
        poll_calls MCV "spoke1" [inl (fake.view [fake.condition "True" "done"])])))
    by (vm_compute; reflexivity).
  rewrite Hrun. split; [reflexivity|].
  exact (CheckStatus_nil_verdict fake.cluster fake.bodies fake.client MCV "spoke1"
           _ _ _ Hrun).
Defined.

Section PollerConverges.
Context {W : Type} (K : Cluster W) (T : TemplateBodies) (c : Client).
Context (resourceType clusterName : string).

Lemma poll_calls_app rs1 rs2 :
  poll_calls resourceType clusterName (rs1 ++ rs2)
  = poll_calls resourceType clusterName rs1 ++ poll_calls resourceType clusterName rs2.
Proof. unfold poll_calls. rewrite map_app, concat_app. reflexivity. Qed.

Lemma CheckStatus_loop_follows script view w1 :
  Forall (fun p => reads_on c (inl p.1)) script ->
  reading c view = Some "True" ->
  forall n w l,
    follows K resourceType clusterName w (script ++ [(view, w1)]) ->
    length script < n ->
    CheckStatus_loop (recording K) T c resourceType clusterName n (w, l)
    = (Returned None,
       (w1, l ++ poll_calls resourceType clusterName
                   (map (fun p => inl p.1) script ++ [inl view]))).
Proof.
  intros Hscript Htrue.
  induction Hscript as [|[v wv] script (view' & s & Hv & Hs & Hne) _ IH];
    intros n w l Hfollows Hlen; (destruct n as [|n]; [cbn in Hlen; lia|]).
  - destruct Hfollows as [Hget _].
    apply reading_Some in Htrue as (conds & Hconds & Hread).
    pose proof (fetch_recording K resourceType clusterName w l) as Hrec.
    rewrite Hget in Hrec.
    rewrite (CheckStatus_loop_attempt (recording K) T c _ _ n _ _ _ _ _
               Hrec Hconds Hread).
    rewrite decide_True by reflexivity. cbn [map app].
    unfold poll_calls. cbn [map concat]. rewrite app_nil_r. reflexivity.
  - destruct Hfollows as [Hget Hfollows]. injection Hv as <-. cbn [fst] in Hs.
    apply reading_Some in Hs as (conds & Hconds & Hread).
    pose proof (fetch_recording K resourceType clusterName w l) as Hrec.
    rewrite Hget in Hrec.
    rewrite (CheckStatus_loop_attempt (recording K) T c _ _ n _ _ _ _ _
               Hrec Hconds Hread).
    rewrite decide_False by assumption.
    rewrite (IH n wv _ Hfollows) by (cbn in Hlen; lia).
    rewrite <- app_assoc. reflexivity.
Qed.

(** A view without a condition list. *)
Lemma conditions_of_missing view :
  Object view !! "status" = None \/
  Object view !! "status" = Some VNull \/
  (exists m, Object view !! "status" = Some (VMap m) /\ m !! "conditions" = None) ->
  conditions_of view = ([], false, None).
Proof.
  unfold conditions_of, unstructured.NestedSlice, unstructured.NestedFieldNoCopy.
  cbn [unstructured.nested_field].
  intros [->| [->|(m & -> & Hm)]]; cbn; [reflexivity..|].
  rewrite Hm. reflexivity.
Qed.

End PollerConverges.

(** X4. When the job view reads a status other than ["True"] at the first
    [k] attempts and ["True"] at the next one, with [k] below ten,
    [CheckStatus] returns nil in the world of that attempt after exactly
    [k + 1] fetches. *)
Theorem CheckStatus_converges {W : Type} (K : Cluster W) (T : TemplateBodies)
    (c : Client) (resourceType clusterName : string) (w w1 : W)
    (script : list (Unstructured * W)) (view : Unstructured) :
  follows K resourceType clusterName w (script ++ [(view, w1)]) ->
  Forall (fun p => reads_on c (inl p.1)) script ->
  reading c view = Some "True" ->
  length script < 10 ->
  CheckStatus (recording K) T c resourceType clusterName (w, [])
  = (Returned None,
     (w1, poll_calls resourceType clusterName
            (map (fun p => inl p.1) script ++ [inl view]))).
Proof.
  intros Hfollows Hscript Htrue Hlen.
  exact (CheckStatus_loop_follows K T c _ _ script view w1 Hscript Htrue 10 w []
           Hfollows Hlen).
Qed.

Lemma CheckStatus_converges_witness :
  let running := fake.view [fake.condition "False" "running"] in
  let done := fake.view [fake.condition "True" "done"] in
  let start : scripted.World := [inl running; inl running; inl running; inl done] in
  let script := [(running, [inl running; inl running; inl done]);
                 (running, [inl running; inl done]);
                 (running, [inl done])] in
  follows scripted.cluster MCV "spoke1" start (script ++ [(done, [])]) /\
  Forall (fun p => reads_on fake.client (inl p.1)) script /\
  CheckStatus (recording scripted.cluster) fake.bodies fake.client MCV "spoke1"
    (start, [])
  = (Returned None,
     ([], poll_calls MCV "spoke1" [inl running; inl running; inl running; inl done])).
Proof.
  cbn zeta.
  set (running := fake.view [fake.condition "False" "running"]).
  set (done := fake.view [fake.condition "True" "done"]).
  set (script := [(running, [inl running; inl running; inl done]);
                  (running, [inl running; inl done]);
                  (running, [inl done])] : list (Unstructured * scripted.World)).
  assert (Hfollows :
    follows scripted.cluster MCV "spoke1"
      [inl running; inl running; inl running; inl done] (script ++ [(done, [])]))
    by (repeat split).
  assert (Hreads : Forall (fun p => reads_on fake.client (inl p.1)) script).
  { repeat constructor; exists running, "False";
      (split; [reflexivity|]); (split; [reflexivity|discriminate]). }
  split; [exact Hfollows|]. split; [exact Hreads|].
  refine (CheckStatus_converges scripted.cluster fake.bodies fake.client MCV "spoke1"
            _ [] script done Hfollows Hreads _ _).
  - reflexivity.
  - cbn. lia.
Defined.

(** X5. A job view that has no [status], a null [status], or a [status]
    without [conditions] ends the polling at once with the error
    "couldn't find the intended structure": the poller does not wait for
    the conditions to appear. *)
Theorem CheckStatus_missing_conditions {W : Type} (K : Cluster W)
    (T : TemplateBodies) (c : Client) (resourceType clusterName : string)
    (n : nat) (w w1 : W) (view : Unstructured) :
  fetch K resourceType clusterName w = (inl view, w1) ->
  Object view !! "status" = None \/
  Object view !! "status" = Some VNull \/
  (exists m, Object view !! "status" = Some (VMap m) /\ m !! "conditions" = None) ->
  CheckStatus_loop K T c resourceType clusterName (S n) w
  = (Returned (Some (ErrorString "couldn't find the intended structure")), w1).
Proof.
  intros Hget Hmissing. apply conditions_of_missing in Hmissing.
  unfold fetch, conditions_of, view_gvr in *.
  cbn [CheckStatus_loop]. unfold ManageObjects, ViewCreateTemplates.
  cbn [ManageObjects_loop ResourceName]. rewrite decide_True by reflexivity.
  rewrite Hget, Hmissing. reflexivity.
Qed.

Lemma CheckStatus_missing_conditions_witness :
  let start : fake.World :=
    [((MCV, "spoke1", "backup-create-clusterview"),
      fake.named "backup-create-clusterview")] in
  Object (fake.named "backup-create-clusterview") !! "status" = None /\
  CheckStatus fake.cluster fake.bodies fake.client MCV "spoke1" start
  = (Returned (Some (ErrorString "couldn't find the intended structure")), start).
Proof.
  cbn zeta. split; [reflexivity|].
  refine (CheckStatus_missing_conditions fake.cluster fake.bodies fake.client MCV
            "spoke1" 9 _ _ (fake.named "backup-create-clusterview") _ _).
  - reflexivity.
  - left. reflexivity.
Defined.

(** ** Query and delete *)

Section ManageFacts.
Context {W : Type} (K : Cluster W) (c : Client).
Context (clusterName resourceType : string).

Lemma ManageObjects_loop_delete_log template :
  forall w l v r w' l',
    ManageObjects_loop (recording K) clusterName (view_gvr resourceType) template
      "delete" (w, l) = ((v, r), (w', l')) ->
    v = None /\
    ((r = None /\
      l' = l ++ map (fun t => delete_call resourceType clusterName t None) template) \/
     (exists pre item post e,
        template = pre ++ item :: post /\ r = Some e /\
        l' = l ++ map (fun t => delete_call resourceType clusterName t None) pre
               ++ [delete_call resourceType clusterName item (Some e)])).
Proof.
  induction template as [|item rest IH]; intros w l v r w' l'.
  - intros [= <- <- <- <-]. split; [reflexivity|]. left. cbn.
    rewrite app_nil_r. auto.
  - cbn. destruct (Delete K _ clusterName (ResourceName item) w) as [[e|] w0].
    + intros [= <- <- <- <-]. split; [reflexivity|]. right.
      exists [], item, rest, e. auto.
    + intros Hrun. apply IH in Hrun as [-> [[-> ->]|(pre & it & post & e & -> & -> & ->)]];
        (split; [reflexivity|]).
      * left. split; [reflexivity|]. rewrite <- app_assoc. reflexivity.
      * right. exists (item :: pre), it, post, e.
        split_and!; [reflexivity..|]. rewrite <- app_assoc. reflexivity.
Qed.

Lemma ManageObjects_loop_delete_app gvr template1 template2 w :
  ManageObjects_loop K clusterName gvr (template1 ++ template2) "delete" w
  = match ManageObjects_loop K clusterName gvr template1 "delete" w with
    | ((_, Some e), w1) => ((None, Some e), w1)
    | ((_, None), w1) => ManageObjects_loop K clusterName gvr template2 "delete" w1
    end.
Proof.
  revert w. induction template1 as [|item rest IH]; intros w; [reflexivity|].
  cbn. destruct (Delete K gvr clusterName (ResourceName item) w) as [[e|] w0];
    [reflexivity|apply IH].
Qed.

End ManageFacts.

(** X6. In get mode [ManageObjects] looks at the first template only: it
    issues the one get for it and returns either the view it got or the
    error of the get; the templates after the first play no part. *)
Theorem ManageObjects_get_first_only {W : Type} (K : Cluster W) (c : Client)
    (clusterName resourceType : string) (item : ResourceTemplate)
    (rest : list ResourceTemplate) (w w' : W) (v : option Unstructured)
    (r : option error) (log : list Call) :
  ManageObjects (recording K) c clusterName (item :: rest) resourceType "get" (w, [])
  = ((v, r), (w', log)) ->
  exists resp,
    log = [CallGet (view_gvr resourceType) clusterName (ResourceName item) resp] /\
    ((exists view, resp = inl view /\ v = Some view /\ r = None) \/
     (exists e, resp = inr e /\ v = None /\ r = Some e)).
Proof.
  unfold ManageObjects. fold (view_gvr resourceType). cbn.
  destruct (Get K _ clusterName (ResourceName item) w) as [[view|e] w0];
    intros [= <- <- <- <-]; eexists; (split; [reflexivity|]); eauto.
Qed.

Lemma ManageObjects_get_first_only_witness :
  let start := fake.world_with_view [fake.condition "True" "done"] in
  let run := ManageObjects (recording fake.cluster) fake.client "spoke1"
               ({| ResourceName := "backup-create-clusterview";
                   Template := mngClusterViewJob fake.bodies |}
                :: JobDeleteTemplates fake.bodies) MCV "get" (start, []) in
  run.1 = (Some (fake.view [fake.condition "True" "done"]), None) /\
  length run.2.2 = 1.
Proof.
  cbn zeta.
  destruct (ManageObjects_get_first_only fake.cluster fake.client "spoke1" MCV
              {| ResourceName := "backup-create-clusterview";
                 Template := mngClusterViewJob fake.bodies |}
              (JobDeleteTemplates fake.bodies)
              (fake.world_with_view [fake.condition "True" "done"])
              (fake.world_with_view [fake.condition "True" "done"])
              (Some (fake.view [fake.condition "True" "done"])) None
              [CallGet (view_gvr MCV) "spoke1" "backup-create-clusterview"
                 (inl (fake.view [fake.condition "True" "done"]))]
              eq_refl) as (resp & Hlog & _).
  split; reflexivity.
Defined.

(** X7. An action other than "get" and "delete" makes [ManageObjects]
    fail with "no condition matched" without any call, but only when there
    is a template to process: on an empty list every action, known or
    not, returns no view and no error. *)
Theorem ManageObjects_unknown_action {W : Type} (K : Cluster W) (c : Client)
    (clusterName resourceType action : string) (template : list ResourceTemplate)
    (w : W) :
  action <> "get" -> action <> "delete" ->
  ManageObjects (recording K) c clusterName template resourceType action (w, [])
  = ((None, match template with
            | [] => None
            | _ :: _ => Some (ErrorString "no condition matched")
            end), (w, [])) /\
  forall known, ManageObjects (recording K) c clusterName [] resourceType known (w, [])
                = ((None, None), (w, [])).
Proof.
  intros Hget Hdelete. split; [|reflexivity].
  unfold ManageObjects. destruct template as [|item rest]; [reflexivity|].
  cbn. rewrite decide_False by assumption. rewrite decide_False by assumption.
  reflexivity.
Qed.

Lemma ManageObjects_unknown_action_witness :
  ManageObjects (recording fake.cluster) fake.client "spoke1"
    (JobDeleteTemplates fake.bodies) MCA "remove" (fake.empty, [])
  = ((None, Some (ErrorString "no condition matched")), (fake.empty, [])).
Proof.
  refine (proj1 (ManageObjects_unknown_action fake.cluster fake.client "spoke1" MCA
                   "remove" (JobDeleteTemplates fake.bodies) fake.empty _ _));
    discriminate.
Defined.

(** X8. In delete mode [ManageObjects] never returns a view, and its calls
    are the deletes of the templates in the order of the list, one each:
    of all of them, every one accepted, when it returns no error; and
    otherwise of the templates up to the first whose delete fails, whose
    error it returns. *)
Theorem ManageObjects_delete_log {W : Type} (K : Cluster W) (c : Client)
    (clusterName resourceType : string) (template : list ResourceTemplate)
    (w w' : W) (v : option Unstructured) (r : option error) (log : list Call) :
  ManageObjects (recording K) c clusterName template resourceType "delete" (w, [])
  = ((v, r), (w', log)) ->
  v = None /\
  ((r = None /\
    log = map (fun t => delete_call resourceType clusterName t None) template) \/
   (exists pre item post e,
      template = pre ++ item :: post /\ r = Some e /\
      log = map (fun t => delete_call resourceType clusterName t None) pre
            ++ [delete_call resourceType clusterName item (Some e)])).
Proof.
  unfold ManageObjects. fold (view_gvr resourceType). intros Hrun.
  exact (ManageObjects_loop_delete_log K clusterName resourceType template
           _ _ _ _ _ _ Hrun).
Qed.

Lemma ManageObjects_delete_log_witness :
  let start := fake.world_with_action "backup-delete-ns" in
  let run := ManageObjects (recording fake.cluster) fake.client "spoke1"
               (JobDeleteTemplates fake.bodies) MCA "delete" (start, []) in
  run = ((None, None),
         (fake.empty,
          map (fun t => delete_call MCA "spoke1" t None)
              (JobDeleteTemplates fake.bodies))) /\
  run.1.1 = None.
Proof.
  cbn zeta.
  assert (Hrun :
    ManageObjects (recording fake.cluster) fake.client "spoke1"
      (JobDeleteTemplates fake.bodies) MCA "delete"
      (fake.world_with_action "backup-delete-ns", [])
    = ((None, None),
       (fake.empty,
        map (fun t => delete_call MCA "spoke1" t None)
            (JobDeleteTemplates fake.bodies)))) by (vm_compute; reflexivity).
  split; [exact Hrun|]. rewrite Hrun.
  exact (proj1 (ManageObjects_delete_log fake.cluster fake.client "spoke1" MCA
                  _ _ _ _ _ _ Hrun)).
Defined.

(** X9. Deleting a list of templates in one call is deleting a first part
    of it and then, when that went without error, the rest in the world
    the first part left; an error in the first part is the result. *)
Theorem ManageObjects_delete_app {W : Type} (K : Cluster W) (c : Client)
    (clusterName resourceType : string) (template1 template2 : list ResourceTemplate)
    (w : W) :
  ManageObjects K c clusterName (template1 ++ template2) resourceType "delete" w
  = match ManageObjects K c clusterName template1 resourceType "delete" w with
    | ((_, Some e), w1) => ((None, Some e), w1)
    | ((_, None), w1) =>
        ManageObjects K c clusterName template2 resourceType "delete" w1
    end.
Proof. unfold ManageObjects. apply ManageObjects_loop_delete_app. Qed.

(** ** More on the dispatcher *)

Section DispatcherCompose.
Context {W : Type} (L : Libs) (K : Cluster W) (T : TemplateBodies) (c : Client).
Context (config : Config) (clusterName : string).

Lemma LaunchKubernetesObjects_loop_app template1 template2 :
  forall nd w,
    LaunchKubernetesObjects_loop L K T c config clusterName nd
      (template1 ++ template2) w
    = match LaunchKubernetesObjects_loop L K T c config clusterName nd template1 w with
      | (Some e, w1) => (Some e, w1)
      | (None, w1) =>
          LaunchKubernetesObjects_loop L K T c config clusterName nd template2 w1
      end.
Proof.
  induction template1 as [|item rest IH]; intros nd w; [reflexivity|].
  cbn [app LaunchKubernetesObjects_loop].
  destruct (LaunchKubernetesObjects_item L K T c config clusterName _ item w)
    as [[e|] w0]; [reflexivity|].
  rewrite IH.
  destruct (LaunchKubernetesObjects_loop L K T c config clusterName _ rest w0)
    as [[e|] w1]; [reflexivity|].
  apply LaunchKubernetesObjects_loop_newdata; reflexivity.
Qed.

End DispatcherCompose.

(** X10. Dispatching a list of templates in one call is dispatching a
    first part of it and then, when that went without error, the rest in
    the world the first part left; an error in the first part is the
    result and the rest is not touched. *)
Theorem LaunchKubernetesObjects_app {W : Type} (L : Libs) (K : Cluster W)
    (T : TemplateBodies) (c : Client) (clusterName : string)
    (template1 template2 : list ResourceTemplate) (w : W) :
  LaunchKubernetesObjects L K T c clusterName (template1 ++ template2) w
  = match LaunchKubernetesObjects L K T c clusterName template1 w with
    | (Some e, w1) => (Some e, w1)
    | (None, w1) => LaunchKubernetesObjects L K T c clusterName template2 w1
    end.
Proof.
  unfold LaunchKubernetesObjects. destruct (GetConfig L c) as [config|e];
    [|reflexivity].
  apply LaunchKubernetesObjects_loop_app.
Qed.

Section DispatcherCalls.
Context (L : Libs) (T : TemplateBodies) (c : Client) (clusterName : string).

Lemma item_trace_calls item r tr :
  item_trace L T c clusterName item r tr ->
  Forall (fun call => is_discovery call || is_create call = true) tr /\
  (forall pre call post e,
     tr = pre ++ call :: post -> refused call e -> post = [] /\ r = Some e).
Proof.
  intros [e|dc e|dc cat e|dc cat call resp Hcall (gvr & ns & obj & ->)].
  - split; [constructor|]. intros [|? ?] ? ? ? ?; discriminate.
  - split; [repeat constructor|].
    intros [|x [|y pre]] call post e' Heq; try discriminate.
    injection Heq as <- <-.
    intros [(? & ? & ? & [=])|(dc' & [= _ <-])]. auto.
  - split; [repeat constructor|].
    intros [|x [|y pre]] call post e' Heq; try discriminate.
    injection Heq as <- <-.
    intros [(? & ? & ? & [=])|(dc' & [=])].
  - split; [repeat constructor|].
    intros [|x [|y [|z pre]]] call post e' Heq; try discriminate.
    + injection Heq as <- <-. intros [(? & ? & ? & [=])|(dc' & [=])].
    + injection Heq as _ <- <-.
      intros [(? & ? & ? & [= _ _ _ ->])|(dc' & [=])]. auto.
Qed.

Lemma dispatch_trace_calls template r tr :
  dispatch_trace L T c clusterName template r tr ->
  Forall (fun call => is_discovery call || is_create call = true) tr /\
  (forall pre call post e,
     tr = pre ++ call :: post -> refused call e -> post = [] /\ r = Some e).
Proof.
  induction 1 as [|item rest e tr Hitem|item rest tr r tr' Hitem Hrest IH].
  - split; [constructor|]. intros [|? ?] ? ? ? ?; discriminate.
  - exact (item_trace_calls _ _ _ Hitem).
  - destruct IH as [Hkinds Hrefused].
    pose proof (item_trace_calls _ _ _ Hitem) as [Hkinds0 Hrefused0].
    split; [apply Forall_app; auto|].
    inversion Hitem as [| | |dc cat call0 resp Hcall (gvr & ns & obj & ->) Hresp Htr].
    subst. intros [|x [|y pre]] call post e Heq Href; cbn in Heq.
    + injection Heq as <- _. destruct Href as [(? & ? & ? & [=])|(dc' & [=])].
    + injection Heq as _ <- _. destruct Href as [(? & ? & ? & [=])|(dc' & [=])].
    + injection Heq as _ _ Heq. exact (Hrefused _ _ _ _ Heq Href).
Qed.

End DispatcherCalls.

(** X11. A dispatch calls nothing but discovery and create: it never
    gets, deletes or sleeps. The first call that the cluster refuses, be
    it a discovery or a create, is the last call of the dispatch, and its
    error is the result. *)
Theorem LaunchKubernetesObjects_calls {W : Type} (L : Libs) (K : Cluster W)
    (T : TemplateBodies) (c : Client) (clusterName : string)
    (template : list ResourceTemplate) (w w' : W) (r : option error)
    (log : list Call) :
  LaunchKubernetesObjects L (recording K) T c clusterName template (w, [])
  = (r, (w', log)) ->
  Forall (fun call => is_discovery call || is_create call = true) log /\
  (forall pre call post e,
     log = pre ++ call :: post -> refused call e -> post = [] /\ r = Some e).
Proof.
  intros Hrun. apply LaunchKubernetesObjects_log in Hrun as [[Hr ->]|Htrace].
  - split; [constructor|]. intros [|? ?] ? ? ? ?; discriminate.
  - exact (dispatch_trace_calls _ _ _ _ _ _ _ Htrace).
Qed.

Lemma LaunchKubernetesObjects_calls_witness :
  let run := LaunchKubernetesObjects fake.libs (recording fake.cluster) fake.bodies
               fake.client "spoke1" (ActionCreateTemplates fake.bodies)
               (fake.empty, []) in
  run.1 = None /\
  Forall (fun call => is_discovery call || is_create call = true) run.2.2.
Proof.
  cbn zeta. split; [vm_compute; reflexivity|].
  exact (proj1 (LaunchKubernetesObjects_calls fake.libs fake.cluster fake.bodies
                  fake.client "spoke1" (ActionCreateTemplates fake.bodies)
                  fake.empty _ None _ fake_create_sequence)).
Defined.

(** ** Is the spoke there? *)

Lemma SpokeClusterExists_loop_true conds :
  SpokeClusterExists_loop conds = Returned true <->
  exists pre v post, conds = pre ++ v :: post /\ Forall is_map pre /\ available v.
Proof.
  induction conds as [|v conds IH].
  - split; [discriminate|]. intros ([|? ?] & ? & ? & [=] & _).
  - split.
    + intros Hrun. cbn in Hrun. destruct v as [| | | | |m]; try discriminate.
      assert (Hrest : SpokeClusterExists_loop conds = Returned true ->
                exists pre v post,
                  VMap m :: conds = pre ++ v :: post /\ Forall is_map pre /\
                  available v).
      { intros Hr. apply IH in Hr as (pre & v & post & -> & Hpre & Hv).
        exists (VMap m :: pre), v, post. split_and!; auto.
        constructor; [exact I|assumption]. }
      destruct (m !! "type") as [[| | |key| |]|] eqn:Htype; auto.
      destruct (decide (key = "ManagedClusterConditionAvailable")) as [->|]; auto.
      destruct (m !! "status") as [[| | |val| |]|] eqn:Hstatus; auto.
      destruct (decide (val = "True")) as [->|]; auto.
      exists [], (VMap m), conds. split_and!; auto. exists m. auto.
    + intros (pre & x & post & Heq & Hpre & Hx).
      destruct pre as [|p pre]; cbn in Heq; injection Heq as -> ->.
      * destruct Hx as (m & -> & Htype & Hstatus). cbn. rewrite Htype.
        rewrite decide_True by reflexivity. rewrite Hstatus.
        rewrite decide_True by reflexivity. reflexivity.
      * apply Forall_cons in Hpre as [Hp Hpre].
        assert (Hrest : SpokeClusterExists_loop (pre ++ x :: post) = Returned true)
          by (apply IH; exists pre, x, post; auto).
        destruct p as [| | | | |m]; try contradiction. cbn.
        destruct (m !! "type") as [[| | |key| |]|]; auto.
        destruct (decide (key = "ManagedClusterConditionAvailable")); auto.
        destruct (m !! "status") as [[| | |val| |]|]; auto.
        destruct (decide (val = "True")); auto.
Qed.

Lemma NestedMap_status obj m b :
  unstructured.NestedMap obj ["status"] = (Some m, b, None) <->
  obj !! "status" = Some (VMap m) /\ b = true.
Proof.
  unfold unstructured.NestedMap, unstructured.NestedFieldNoCopy. cbn.
  destruct (obj !! "status") as [[| | | | |m']|]; cbn;
    (split; [intros H; try discriminate H|intros [H1 H2]; try discriminate H1]).
  - injection H as <- <-. auto.
  - injection H1 as <-. subst b. reflexivity.
Qed.

(** X12. [SpokeClusterExists] answers true exactly when the get of the
    managed cluster succeeds and the list under [status.conditions] holds,
    after nothing but maps, a condition of type
    ManagedClusterConditionAvailable with status ["True"]. Unlike the
    poller it takes the first such condition at any place in the list. *)
Theorem SpokeClusterExists_true_iff {W : Type} (K : Cluster W) (c : Client)
    (name : string) (w : W) :
  (SpokeClusterExists K c name w).1 = Returned true <->
  exists obj status conds pre v post,
    (Get K managedclusters EmptyString name w).1 = inl obj /\
    Object obj !! "status" = Some (VMap status) /\
    status !! "conditions" = Some (VList conds) /\
    conds = pre ++ v :: post /\ Forall is_map pre /\ available v.
Proof.
  unfold SpokeClusterExists. fold managedclusters.
  destruct (Get K managedclusters EmptyString name w) as [[obj|e] w1]; cbn [fst].
  2:{ split; [discriminate|]. intros (? & ? & ? & ? & ? & ? & [=] & _). }
  destruct (unstructured.NestedMap (Object obj) ["status"]) as [[status b] err]
    eqn:Hstatus.
  split.
  - destruct err as [err|]; [discriminate|].
    destruct status as [status|]; [|discriminate].
    apply NestedMap_status in Hstatus as [Hstatus _].
    destruct (status !! "conditions") as [[| | | |conds|]|] eqn:Hconds;
      try discriminate.
    cbn [fst]. intros Hloop.
    apply SpokeClusterExists_loop_true in Hloop as (pre & v & post & -> & Hpre & Hv).
    exists obj, status, (pre ++ v :: post), pre, v, post. split_and!; auto.
  - intros (obj' & status' & conds & pre & v & post & [= <-] & Hst & Hconds & ->
            & Hpre & Hv).
    assert (Hnm : unstructured.NestedMap (Object obj) ["status"]
                  = (Some status', true, None))
      by (apply NestedMap_status; auto).
    rewrite Hnm in Hstatus. injection Hstatus as <- <- <-.
    rewrite Hconds. cbn [fst]. apply SpokeClusterExists_loop_true.
    exists pre, v, post. auto.
Qed.

(** ** The policy revision *)

Section PolicyReads.
Context {W : Type} (K : Cluster W) (c : policy.Client).

Lemma NestedMap_field obj field m :
  obj !! field = Some (VMap m) ->
  unstructured.NestedMap obj [field] = (Some m, true, None).
Proof.
  intros H. unfold unstructured.NestedMap, unstructured.NestedFieldNoCopy. cbn.
  rewrite H. reflexivity.
Qed.

Lemma GetRootFsFromVersion_loop_skip version pre rest :
  Forall (image_not_for version) pre ->
  policy.GetRootFsFromVersion_loop version (pre ++ rest)
  = policy.GetRootFsFromVersion_loop version rest.
Proof.
  induction 1 as [|v pre (m & -> & Hm) _ IH]; [reflexivity|]. cbn.
  destruct (m !! "openshiftVersion") as [[| | |key| |]|]; auto.
  rewrite decide_False by congruence. exact IH.
Qed.

Lemma GetRootFsFromVersion_loop_hit version url v rest :
  image_for version url v ->
  policy.GetRootFsFromVersion_loop version (v :: rest) = Returned (Some url).
Proof.
  intros (m & -> & Hv & Hu). cbn. rewrite Hv, decide_True by reflexivity.
  rewrite Hu. reflexivity.
Qed.

Lemma GetImageFromImageSet_found name w w1 obj spec img :
  Get K policy.clusterimagesets EmptyString name w = (inl obj, w1) ->
  Object obj !! "spec" = Some (VMap spec) ->
  spec !! "releaseImage" = Some (VString img) ->
  policy.GetImageFromImageSet K c name w = (Returned (img, None), w1).
Proof.
  intros Hget Hspec Himg. unfold policy.GetImageFromImageSet.
  rewrite Hget, (NestedMap_field _ _ _ Hspec). unfold unstructured.index. cbn.
  rewrite Himg. reflexivity.
Qed.

End PolicyReads.

(** X13. [GetRootFsFromVersion] returns the root file system of the first
    entry of [spec.osImages] that is for the version asked, when the
    entries before it are maps for other versions; when no entry is for
    that version it returns the empty string and no error. *)
Theorem GetRootFsFromVersion_first_match {W : Type} (K : Cluster W)
    (c : policy.Client) (version : string) (w w1 : W) (obj : Unstructured)
    (spec : gmap string value) (images : list value) :
  Get K policy.agentserviceconfigs EmptyString "agent" w = (inl obj, w1) ->
  Object obj !! "spec" = Some (VMap spec) ->
  spec !! "osImages" = Some (VList images) ->
  (forall pre v post url,
     images = pre ++ v :: post ->
     Forall (image_not_for version) pre ->
     image_for version url v ->
     policy.GetRootFsFromVersion K c version w = (Returned (url, None), w1)) /\
  (Forall (image_not_for version) images ->
   policy.GetRootFsFromVersion K c version w = (Returned (EmptyString, None), w1)).
Proof.
  intros Hget Hspec Himages. unfold policy.GetRootFsFromVersion.
  rewrite Hget, (NestedMap_field _ _ _ Hspec). unfold unstructured.index. cbn.
  rewrite Himages. cbn. split.
  - intros pre v post url -> Hpre Hv.
    rewrite (GetRootFsFromVersion_loop_skip _ _ _ Hpre).
    rewrite (GetRootFsFromVersion_loop_hit _ _ _ _ Hv). reflexivity.
  - intros Hall.
    rewrite <- (app_nil_r images), (GetRootFsFromVersion_loop_skip _ _ _ Hall).
    reflexivity.
Qed.

Lemma GetRootFsFromVersion_first_match_witness :
  let config := fake_policy.with_spec "osImages"
                  (VList [fake_policy.os_image "4.8" "https://mirror/4.8/rootfs.img";
                          fake_policy.os_image "4.9" "https://mirror/4.9/rootfs.img"]) in
  let start : fake.World := [(("agentserviceconfigs", EmptyString, "agent"), config)] in
  policy.GetRootFsFromVersion fake.cluster fake_policy.client "4.9" start
  = (Returned ("https://mirror/4.9/rootfs.img", None), start) /\
  policy.GetRootFsFromVersion fake.cluster fake_policy.client "4.7" start
  = (Returned (EmptyString, None), start).
Proof.
  cbn zeta.
  set (images := [fake_policy.os_image "4.8" "https://mirror/4.8/rootfs.img";
                  fake_policy.os_image "4.9" "https://mirror/4.9/rootfs.img"]).
  set (start := [(("agentserviceconfigs", EmptyString, "agent"),
                  fake_policy.with_spec "osImages" (VList images))] : fake.World).
  pose proof (GetRootFsFromVersion_first_match fake.cluster fake_policy.client "4.9"
                start start (fake_policy.with_spec "osImages" (VList images))
                {[ "osImages" := VList images ]} images
                eq_refl eq_refl eq_refl) as [Hhit _].
  pose proof (GetRootFsFromVersion_first_match fake.cluster fake_policy.client "4.7"
                start start (fake_policy.with_spec "osImages" (VList images))
                {[ "osImages" := VList images ]} images
                eq_refl eq_refl eq_refl) as [_ Hmiss].
  split.
  - apply (Hhit [fake_policy.os_image "4.8" "https://mirror/4.8/rootfs.img"]
                (fake_policy.os_image "4.9" "https://mirror/4.9/rootfs.img") []).
    + reflexivity.
    + repeat constructor. eexists. split; [reflexivity|]. vm_compute. discriminate.
    + eexists. split; [reflexivity|]. split; reflexivity.
  - apply Hmiss. repeat constructor;
      (eexists; split; [reflexivity|]; vm_compute; discriminate).
Defined.

(** X14. [GetImageFromImageSet] returns the string under
    [spec.releaseImage] of the image set; for an image set without [spec]
    or without [releaseImage] it returns the empty string and no error. *)
Theorem GetImageFromImageSet_reads_release {W : Type} (K : Cluster W)
    (c : policy.Client) (name : string) (w w1 : W) (obj : Unstructured) :
  Get K policy.clusterimagesets EmptyString name w = (inl obj, w1) ->
  (forall spec img,
     Object obj !! "spec" = Some (VMap spec) ->
     spec !! "releaseImage" = Some (VString img) ->
     policy.GetImageFromImageSet K c name w = (Returned (img, None), w1)) /\
  (Object obj !! "spec" = None \/
   (exists spec, Object obj !! "spec" = Some (VMap spec) /\
                 spec !! "releaseImage" = None) ->
   policy.GetImageFromImageSet K c name w = (Returned (EmptyString, None), w1)).
Proof.
  intros Hget. split; [|unfold policy.GetImageFromImageSet; rewrite Hget].
  - intros spec img Hspec Himg.
    exact (GetImageFromImageSet_found K c name w w1 obj spec img Hget Hspec Himg).
  - intros [Hnone|(spec & Hspec & Hnone)].
    + unfold unstructured.NestedMap, unstructured.NestedFieldNoCopy. cbn.
      rewrite Hnone. reflexivity.
    + rewrite (NestedMap_field _ _ _ Hspec). unfold unstructured.index. cbn.
      rewrite Hnone. reflexivity.
Qed.

Lemma GetImageFromImageSet_reads_release_witness :
  let set := fake_policy.with_spec "releaseImage" (VString "quay.io/ocp:4.9") in
  let start : fake.World := [(("clusterimagesets", EmptyString, "img4.9"), set)] in
  policy.GetImageFromImageSet fake.cluster fake_policy.client "img4.9" start
  = (Returned ("quay.io/ocp:4.9", None), start).
Proof.
  cbn zeta.
  set (start := [(("clusterimagesets", EmptyString, "img4.9"),
                  fake_policy.with_spec "releaseImage" (VString "quay.io/ocp:4.9"))]
                : fake.World).
  refine (proj1 (GetImageFromImageSet_reads_release fake.cluster fake_policy.client
                   "img4.9" start start
                   (fake_policy.with_spec "releaseImage" (VString "quay.io/ocp:4.9"))
                   eq_refl)
                {[ "releaseImage" := VString "quay.io/ocp:4.9" ]} _ eq_refl eq_refl).
Defined.

(** X15. [GetReleaseImage] follows the reference of the spoke's agent
    cluster install: with a non-empty [spec.imageSetRef.name] it gets the
    image set of that name and returns its release image; when that
    second get fails it returns the empty string with the error of the
    get. *)
Theorem GetReleaseImage_follows_reference {W : Type} (K : Cluster W)
    (c : policy.Client) (w w1 : W) (install : Unstructured)
    (spec ref : gmap string value) (name : string) :
  Get K policy.agentclusterinstalls (policy.Spoke c) (policy.Spoke c) w
  = (inl install, w1) ->
  Object install !! "spec" = Some (VMap spec) ->
  spec !! "imageSetRef" = Some (VMap ref) ->
  ref !! "name" = Some (VString name) ->
  name <> EmptyString ->
  (forall set w2 sspec img,
     Get K policy.clusterimagesets EmptyString name w1 = (inl set, w2) ->
     Object set !! "spec" = Some (VMap sspec) ->
     sspec !! "releaseImage" = Some (VString img) ->
     policy.GetReleaseImage K c w = (Returned (img, None), w2)) /\
  (forall e w2,
     Get K policy.clusterimagesets EmptyString name w1 = (inr e, w2) ->
     policy.GetReleaseImage K c w = (Returned (EmptyString, Some e), w2)).
Proof.
  intros Hget Hspec Href Hname Hne. unfold policy.GetReleaseImage.
  rewrite Hget, (NestedMap_field _ _ _ Hspec). unfold unstructured.index. cbn.
  rewrite Href. cbn. rewrite Hname, decide_False by assumption. split.
  - intros set w2 sspec img Hget2 Hsspec Himg.
    pose proof (GetImageFromImageSet_found K c name w1 w2 set sspec img
                  Hget2 Hsspec Himg) as ->.
    reflexivity.
  - intros e w2 Hget2. unfold policy.GetImageFromImageSet. rewrite Hget2.
    reflexivity.
Qed.

Lemma GetReleaseImage_follows_reference_witness :
  let install := fake_policy.with_spec "imageSetRef"
                   (VMap {[ "name" := VString "img4.9" ]}) in
  let set := fake_policy.with_spec "releaseImage" (VString "quay.io/ocp:4.9") in
  let start : fake.World :=
    [(("agentclusterinstalls", "spoke1", "spoke1"), install);
     (("clusterimagesets", EmptyString, "img4.9"), set)] in
  policy.GetReleaseImage fake.cluster fake_policy.client start
  = (Returned ("quay.io/ocp:4.9", None), start).
Proof.
  cbn zeta.
  set (install := fake_policy.with_spec "imageSetRef"
                    (VMap {[ "name" := VString "img4.9" ]})).
  set (set_ := fake_policy.with_spec "releaseImage" (VString "quay.io/ocp:4.9")).
  set (start := [(("agentclusterinstalls", "spoke1", "spoke1"), install);
                 (("clusterimagesets", EmptyString, "img4.9"), set_)] : fake.World).
  assert (Hne : "img4.9" <> EmptyString) by discriminate.
  refine (proj1 (GetReleaseImage_follows_reference fake.cluster fake_policy.client
                   start start install
                   {[ "imageSetRef" := VMap {[ "name" := VString "img4.9" ]} ]}
                   {[ "name" := VString "img4.9" ]} "img4.9"
                   eq_refl eq_refl eq_refl eq_refl Hne)
                set_ start {[ "releaseImage" := VString "quay.io/ocp:4.9" ]} _
                eq_refl eq_refl eq_refl).
Defined.

(** X16. [GetRootFSUrl] reads the label
    [hive.openshift.io/version-major-minor] of the spoke's cluster
    deployment and, when it is a non-empty string, returns what
    [GetRootFsFromVersion] finds for that version, value and world; an
    error of that lookup comes back with the empty string. *)
Theorem GetRootFSUrl_follows_label {W : Type} (K : Cluster W)
    (c : policy.Client) (w w1 : W) (deployment : Unstructured)
    (metadata labels : gmap string value) (version : string) :
  Get K policy.clusterdeployments (policy.Spoke c) (policy.Spoke c) w
  = (inl deployment, w1) ->
  Object deployment !! "metadata" = Some (VMap metadata) ->
  metadata !! "labels" = Some (VMap labels) ->
  labels !! "hive.openshift.io/version-major-minor" = Some (VString version) ->
  version <> EmptyString ->
  (forall url w2,
     policy.GetRootFsFromVersion K c version w1 = (Returned (url, None), w2) ->
     policy.GetRootFSUrl K c w = (Returned (url, None), w2)) /\
  (forall url e w2,
     policy.GetRootFsFromVersion K c version w1 = (Returned (url, Some e), w2) ->
     policy.GetRootFSUrl K c w = (Returned (EmptyString, Some e), w2)).
Proof.
  intros Hget Hmeta Hlabels Hversion Hne. unfold policy.GetRootFSUrl.
  rewrite Hget, (NestedMap_field _ _ _ Hmeta). unfold unstructured.index. cbn.
  rewrite Hlabels. cbn. rewrite Hversion, decide_False by assumption.
  split; intros; match goal with H : policy.GetRootFsFromVersion _ _ _ _ = _ |- _ =>
                   rewrite H end; reflexivity.
Qed.

Lemma GetRootFSUrl_follows_label_witness :
  let deployment : Unstructured :=
    {| Object := {[ "metadata" := VMap {[ "labels" := VMap
         {[ "hive.openshift.io/version-major-minor" := VString "4.9" ]} ]} ]} |} in
  let config := fake_policy.with_spec "osImages"
                  (VList [fake_policy.os_image "4.9" "https://mirror/4.9/rootfs.img"]) in
  let start : fake.World :=
    [(("clusterdeployments", "spoke1", "spoke1"), deployment);
     (("agentserviceconfigs", EmptyString, "agent"), config)] in
  policy.GetRootFSUrl fake.cluster fake_policy.client start
  = (Returned ("https://mirror/4.9/rootfs.img", None), start).
Proof.
  cbn zeta.
  set (labels := {[ "hive.openshift.io/version-major-minor" := VString "4.9" ]}
                 : gmap string value).
  set (deployment := {| Object := {[ "metadata" := VMap {[ "labels" := VMap labels ]} ]} |}).
  set (config := fake_policy.with_spec "osImages"
                   (VList [fake_policy.os_image "4.9" "https://mirror/4.9/rootfs.img"])).
  set (start := [(("clusterdeployments", "spoke1", "spoke1"), deployment);
                 (("agentserviceconfigs", EmptyString, "agent"), config)]
                : fake.World).
  assert (Hne : "4.9" <> EmptyString) by discriminate.
  refine (proj1 (GetRootFSUrl_follows_label fake.cluster fake_policy.client
                   start start deployment {[ "labels" := VMap labels ]} labels "4.9"
                   eq_refl eq_refl eq_refl eq_refl Hne) _ start _).
  vm_compute. reflexivity.
Defined.

(** X17. The edge cases of [GetRootFSUrl] on a cluster deployment it has
    found: labels without the version label give the empty string and no
    error, with no further call; metadata without labels make it
    panic. *)
Theorem GetRootFSUrl_without_label {W : Type} (K : Cluster W)
    (c : policy.Client) (w w1 : W) (deployment : Unstructured)
    (metadata : gmap string value) :
  Get K policy.clusterdeployments (policy.Spoke c) (policy.Spoke c) w
  = (inl deployment, w1) ->
  Object deployment !! "metadata" = Some (VMap metadata) ->
  (forall labels,
     metadata !! "labels" = Some (VMap labels) ->
     labels !! "hive.openshift.io/version-major-minor" = None ->
     policy.GetRootFSUrl K c w = (Returned (EmptyString, None), w1)) /\
  (metadata !! "labels" = None ->
   exists msg, policy.GetRootFSUrl K c w = (Panicked msg, w1)).
Proof.
  intros Hget Hmeta. unfold policy.GetRootFSUrl.
  rewrite Hget, (NestedMap_field _ _ _ Hmeta). unfold unstructured.index. cbn.
  split.
  - intros labels Hlabels Hnone. rewrite Hlabels. cbn. rewrite Hnone. reflexivity.
  - intros Hnone. rewrite Hnone. cbn. eauto.
Qed.

Lemma GetRootFSUrl_without_label_witness :
  let deployment : Unstructured :=
    {| Object := {[ "metadata" := VMap {[ "name" := VString "spoke1" ]} ]} |} in
  let start : fake.World :=
    [(("clusterdeployments", "spoke1", "spoke1"), deployment)] in
  exists msg,
    policy.GetRootFSUrl fake.cluster fake_policy.client start = (Panicked msg, start).
Proof.
  cbn zeta.
  set (deployment := {| Object := {[ "metadata" := VMap {[ "name" := VString "spoke1" ]} ]} |}).
  set (start := [(("clusterdeployments", "spoke1", "spoke1"), deployment)]
                : fake.World).
  refine (proj2 (GetRootFSUrl_without_label fake.cluster fake_policy.client
                   start start deployment {[ "name" := VString "spoke1" ]}
                   eq_refl eq_refl) eq_refl).
Defined.

Section PolicyWrites.
Context {W : Type} (L : policy.Libs) (K : Cluster W) (T : policy.Templates).
Context (c : policy.Client).

Lemma RemovePreviousResources_loop_log PoliciesList :
  forall w l r w' l',
    policy.RemovePreviousResources_loop (recording K) PoliciesList (w, l)
    = (r, (w', l')) ->
    exists tr, l' = l ++ tr /\ removal_trace PoliciesList r tr.
Proof.
  induction PoliciesList as [|p rest IH]; intros w l r w' l'.
  - intros [= <- <- <-]. exists []. rewrite app_nil_r. split; constructor.
  - cbn. destruct (Get K policy.policies policy.hub_namespace p w) as [[obj|e] w0].
    + cbn. destruct (Delete K policy.policies policy.hub_namespace p w0)
        as [[e|] w1].
      * intros [= <- <- <-]. eexists. rewrite <- app_assoc.
        split; [reflexivity|]. apply removal_failed.
      * intros Hrun. apply IH in Hrun as (tr & -> & Htr).
        eexists. rewrite <- !app_assoc. split; [reflexivity|].
        cbn. apply removal_removed. exact Htr.
    + intros Hrun. apply IH in Hrun as (tr & -> & Htr).
      eexists. rewrite <- app_assoc. split; [reflexivity|].
      cbn. apply removal_absent. exact Htr.
Qed.

(** What a creating step leaves in the log, with its verdict. *)
Lemma create_from_template_log templateName text arg gvr w l r w' l' :
  policy.create_from_template L (recording K) templateName text arg gvr (w, l)
  = (r, (w', l')) ->
  exists tr, l' = l ++ tr /\
             step_calls (document_of L templateName text arg) gvr r tr.
Proof.
  unfold policy.create_from_template, document_of, step_calls.
  destruct (policy.template_Execute L _ arg) as [bytes [xerr|]].
  { intros [= <- <- <-]. exists []. rewrite app_nil_r. auto. }
  destruct (policy.yaml_Decode L bytes) as [[obj gvk]|derr].
  2:{ intros [= <- <- <-]. exists []. rewrite app_nil_r. auto. }
  cbn. destruct (Create K gvr policy.hub_namespace obj w) as [[e|] w0];
    intros [= <- <- <-]; eexists; split; reflexivity.
Qed.

(** A binding step whose verdict is dropped, followed by a policy step. *)
Lemma backup_run_intro bindingName policyName templateName text arg
    w r w' log :
  (let '(_, world) := policy.CreatePlacementBinding L (recording K) T c
                        bindingName policyName (w, []) in
   policy.create_from_template L (recording K) templateName text arg
     policy.policies world) = (r, (w', log)) ->
  backup_run
    (document_of L "policyBackupPlacementBindingTemplate"
       (policy.policyBackupPlacementBindingTemplate T)
       (binding_arg bindingName policyName))
    (document_of L templateName text arg) r log.
Proof.
  unfold policy.CreatePlacementBinding. fold (binding_arg bindingName policyName).
  destruct (policy.create_from_template L (recording K) _ _ _
              policy.placementbindings (w, [])) as [rb [wb lb]] eqn:Hbinding.
  intros Hpolicy.
  apply create_from_template_log in Hbinding as (tb & Hlb & Hstepb).
  apply create_from_template_log in Hpolicy as (tp & -> & Hstepp).
  cbn in Hlb. subst lb. exists rb, tb, tp. auto.
Qed.

End PolicyWrites.

(** X18. The calls of [RemovePreviousResources] follow the two policies in
    order, the live image first: one get for each, and one delete right
    after the get when, and only when, the get gave an object. A get that
    fails, for whatever reason, is passed over in silence; a delete that
    fails ends the run with its error. *)
Theorem RemovePreviousResources_log {W : Type} (K : Cluster W)
    (c : policy.Client) (w w' : W) (r : option error) (log : list Call) :
  policy.RemovePreviousResources (recording K) c (w, []) = (r, (w', log)) ->
  removal_trace [policy.LIVE_POLICY; policy.RELEASE_POLICY] r log.
Proof.
  intros Hrun. unfold policy.RemovePreviousResources in Hrun.
  apply RemovePreviousResources_loop_log in Hrun as (tr & -> & Htr). exact Htr.
Qed.

Lemma RemovePreviousResources_log_witness :
  let start : fake.World :=
    [(("policies", policy.hub_namespace, policy.RELEASE_POLICY),
      fake.named policy.RELEASE_POLICY)] in
  let run := policy.RemovePreviousResources (recording fake.cluster)
               fake_policy.client (start, []) in
  run.1 = None /\ run.2.1 = fake.empty /\
  removal_trace [policy.LIVE_POLICY; policy.RELEASE_POLICY] run.1 run.2.2.
Proof.
  cbn zeta.
  set (start := [(("policies", policy.hub_namespace, policy.RELEASE_POLICY),
                  fake.named policy.RELEASE_POLICY)] : fake.World).
  split; [vm_compute; reflexivity|]. split; [vm_compute; reflexivity|].
  apply (RemovePreviousResources_log fake.cluster fake_policy.client start
           (policy.RemovePreviousResources (recording fake.cluster)
              fake_policy.client (start, [])).2.1).
  destruct (policy.RemovePreviousResources (recording fake.cluster)
              fake_policy.client (start, [])) as [r [w' log]].
  reflexivity.
Defined.

(** X19. [LaunchLiveImageBackup] runs the step for the placement binding
    and then, whatever the verdict on the binding, the step for the policy
    of the live image; each step makes no call when its template or its
    decoding fails and one create in the namespace open-cluster-management
    otherwise. The result is the verdict of the policy step alone: the
    error that stopped it before the create, or the response to the create
    of the policy. An error of the placement binding is never the
    result. *)
Theorem LaunchLiveImageBackup_log {W : Type} (L : policy.Libs) (K : Cluster W)
    (T : policy.Templates) (c : policy.Client) (liveImg : string) (w w' : W)
    (r : option error) (log : list Call) :
  policy.LaunchLiveImageBackup L (recording K) T c liveImg (w, []) = (r, (w', log)) ->
  backup_run
    (document_of L "policyBackupPlacementBindingTemplate"
       (policy.policyBackupPlacementBindingTemplate T)
       (binding_arg "placement-binding-backup-live-image" policy.LIVE_POLICY))
    (document_of L "policyBackupLiveImageTemplate"
       (policy.policyBackupLiveImageTemplate T)
       (backup_arg c policy.LIVE_POLICY liveImg))
    r log.
Proof. apply backup_run_intro. Qed.

Lemma LaunchLiveImageBackup_log_witness :
  let binding := fake.named "policyBackupPlacementBindingTemplate" in
  let start : fake.World :=
    [(("placementbindings", policy.hub_namespace,
       "policyBackupPlacementBindingTemplate"), binding)] in
  let run := policy.LaunchLiveImageBackup fake_policy.libs (recording fake.cluster)
               fake_policy.templates fake_policy.client "quay.io/live:1" (start, []) in
  run.1 = None /\
  run.2.2 =
    [CallCreate policy.placementbindings policy.hub_namespace binding
       (Some (fake.already_exists "placementbindings"
                "policyBackupPlacementBindingTemplate"));
     CallCreate policy.policies policy.hub_namespace
       (fake.named "policyBackupLiveImageTemplate") None] /\
  backup_run (inl binding) (inl (fake.named "policyBackupLiveImageTemplate"))
    run.1 run.2.2.
Proof.
  cbn zeta.
  set (start := [(("placementbindings", policy.hub_namespace,
                   "policyBackupPlacementBindingTemplate"),
                  fake.named "policyBackupPlacementBindingTemplate")] : fake.World).
  split; [vm_compute; reflexivity|]. split; [vm_compute; reflexivity|].
  apply (LaunchLiveImageBackup_log fake_policy.libs fake.cluster
           fake_policy.templates fake_policy.client "quay.io/live:1" start
           (policy.LaunchLiveImageBackup fake_policy.libs (recording fake.cluster)
              fake_policy.templates fake_policy.client "quay.io/live:1"
              (start, [])).2.1).
  destruct (policy.LaunchLiveImageBackup fake_policy.libs (recording fake.cluster)
              fake_policy.templates fake_policy.client "quay.io/live:1" (start, []))
    as [r [w' log]].
  reflexivity.
Defined.

(** X20. [LaunchReleaseImageBackup] runs the step for the placement
    binding and then, whatever the verdict on the binding, the step for
    the policy of the release image; each step makes no call when its
    template or its decoding fails and one create in the namespace
    open-cluster-management otherwise. The result is the verdict of the
    policy step alone: the error that stopped it before the create, or the
    response to the create of the policy. An error of the placement
    binding is never the result. *)
Theorem LaunchReleaseImageBackup_log {W : Type} (L : policy.Libs) (K : Cluster W)
    (T : policy.Templates) (c : policy.Client) (releaseImg : string) (w w' : W)
    (r : option error) (log : list Call) :
  policy.LaunchReleaseImageBackup L (recording K) T c releaseImg (w, [])
  = (r, (w', log)) ->
  backup_run
    (document_of L "policyBackupPlacementBindingTemplate"
       (policy.policyBackupPlacementBindingTemplate T)
       (binding_arg "placement-binding-backup-release-image" policy.RELEASE_POLICY))
    (document_of L "policyBackupReleaseImageTemplate"
       (policy.policyBackupReleaseImageTemplate T)
       (backup_arg c policy.RELEASE_POLICY releaseImg))
    r log.
Proof. apply backup_run_intro. Qed.

Lemma LaunchReleaseImageBackup_log_witness :
  let policy_doc := fake.named "policyBackupReleaseImageTemplate" in
  let start : fake.World :=
    [(("policies", policy.hub_namespace, "policyBackupReleaseImageTemplate"),
      policy_doc)] in
  let run := policy.LaunchReleaseImageBackup fake_policy.libs
               (recording fake.cluster) fake_policy.templates fake_policy.client
               "quay.io/release:1" (start, []) in
  run.1 = Some (fake.already_exists "policies" "policyBackupReleaseImageTemplate") /\
  length run.2.2 = 2 /\
  backup_run (inl (fake.named "policyBackupPlacementBindingTemplate"))
    (inl policy_doc) run.1 run.2.2.
Proof.
  cbn zeta.
  set (start := [(("policies", policy.hub_namespace,
                   "policyBackupReleaseImageTemplate"),
                  fake.named "policyBackupReleaseImageTemplate")] : fake.World).
  split; [vm_compute; reflexivity|]. split; [vm_compute; reflexivity|].
  apply (LaunchReleaseImageBackup_log fake_policy.libs fake.cluster
           fake_policy.templates fake_policy.client "quay.io/release:1" start
           (policy.LaunchReleaseImageBackup fake_policy.libs (recording fake.cluster)
              fake_policy.templates fake_policy.client "quay.io/release:1"
              (start, [])).2.1).
  destruct (policy.LaunchReleaseImageBackup fake_policy.libs (recording fake.cluster)
              fake_policy.templates fake_policy.client "quay.io/release:1"
              (start, [])) as [r [w' log]].
  reflexivity.
Defined.
